(** * Certificate, CSR and PKCS#7 envelope generation of gsn-dev-tools

    A shallow embedding of package [certificates]
    (src/internals/files/fileRename.go, lines 340-671): [createCSR],
    [signCSRToPKCS7] and [CertificateGeneration], together with the part of
    Go's [encoding/asn1] and [encoding/base64] that the envelope is built
    with.  The cryptographic and parsing routines of the Go standard library
    ([crypto/x509], [encoding/pem], [net/url], [crypto/rand], [time]) are an
    interface, [GoLib], over which the package's functions are written. *)

From Stdlib Require Import ZArith List String Ascii Bool Lia.
From Stdlib.Strings Require Import Byte.
From stdpp Require Import base option list gmap strings.

Import ListNotations.
Set Warnings "-register-all".
Local Open Scope Z_scope.
Local Open Scope list_scope.

(** ** Go values shared by all packages *)

(** A Go [error] value: either a plain message or [fmt.Errorf] with a [%w]
    verb, which keeps the wrapped error. *)
Inductive error : Type :=
| errorString (msg : string)
| wrapError (msg : string) (inner : error).

(** [err.Error()] *)
Definition Error (e : error) : string :=
  match e with
  | errorString msg => msg
  | wrapError msg _ => msg
  end.

(** [fmt.Errorf(prefix + ": %w", err)] *)
Definition Errorf_w (prefix : string) (err : error) : error :=
  wrapError (prefix ++ ": " ++ Error err)%string err.

(** A Go result pair [(T, error)] with [err == nil] or not. *)
Inductive result (A : Type) : Type :=
| Ok (a : A)
| Err (e : error).
Arguments Ok {A} a.
Arguments Err {A} e.

Definition bytes := list byte.

(** [byte(x)] for an integer [x]: the low eight bits. *)
Definition byte_of_Z (z : Z) : byte :=
  match Byte.of_N (Z.to_N (z mod 256)) with
  | Some b => b
  | None => x00
  end.

Definition Z_of_byte (b : byte) : Z := Z.of_N (Byte.to_N b).

(** ** encoding/asn1: the marshaller

    The fragment of [asn1.Marshal] reached from [signCSRToPKCS7]: values of
    kind int, [ObjectIdentifier], [RawValue], slices of an unnamed slice type
    and structs whose fields carry the options [optional], [explicit] and
    [tag:n].  Function names are those of encoding/asn1/marshal.go. *)
Module asn1.

Definition ObjectIdentifier := list Z.

Record RawValue : Type := mkRawValue {
  Class : Z;
  Tag : Z;
  IsCompound : bool;
  Bytes : bytes;
  FullBytes : bytes  (* includes the tag and length *)
}.

(** The zero value [asn1.RawValue{}]. *)
Definition zeroRawValue : RawValue :=
  {| Class := 0; Tag := 0; IsCompound := false; Bytes := []; FullBytes := [] |}.

(** The parsed form of a struct tag [asn1:"..."]. *)
Record fieldParameters : Type := mkParams {
  optional : bool;
  explicit : bool;
  tag : option Z
}.

(** [parseFieldParameters("")] *)
Definition noParams : fieldParameters :=
  {| optional := false; explicit := false; tag := None |}.

Inductive value : Type :=
| VInt (i : Z)
| VObjectIdentifier (oid : ObjectIdentifier)
| VRawValue (rv : RawValue)
| VSlice (elems : list value)
| VStruct (fields : list (fieldParameters * value)).

Definition ClassUniversal : Z := 0.
Definition ClassContextSpecific : Z := 2.
Definition TagInteger : Z := 2.
Definition TagOID : Z := 6.
Definition TagSequence : Z := 16.
Definition TagSet : Z := 17.

Definition StructuralError (msg : string) : error :=
  errorString ("asn1: structure error: " ++ msg).

(** [base128IntLength]: the loop runs at most ten times on an int64. *)
Fixpoint base128IntLength_loop (fuel : nat) (i : Z) : Z :=
  match fuel with
  | O => 0
  | S fuel' => if 0 <? i then 1 + base128IntLength_loop fuel' (Z.shiftr i 7) else 0
  end.

Definition base128IntLength (n : Z) : Z :=
  if n =? 0 then 1 else base128IntLength_loop 10 n.

(** [appendBase128Int]: for i := l - 1; i >= 0; i-- *)
Fixpoint appendBase128Int_loop (count : nat) (n : Z) : bytes :=
  match count with
  | O => []
  | S i =>
      let o := Z.land (Z.shiftr n (Z.of_nat i * 7)) 127 in
      let o := if Nat.eqb i 0 then o else Z.lor o 128 in
      byte_of_Z o :: appendBase128Int_loop i n
  end.

Definition appendBase128Int (dst : bytes) (n : Z) : bytes :=
  dst ++ appendBase128Int_loop (Z.to_nat (base128IntLength n)) n.

(** [lengthLength]: the loop runs at most eight times on a 64-bit int. *)
Fixpoint lengthLength_loop (fuel : nat) (i : Z) : Z :=
  match fuel with
  | O => 1
  | S fuel' => if 255 <? i then 1 + lengthLength_loop fuel' (Z.shiftr i 8) else 1
  end.

Definition lengthLength (i : Z) : Z := lengthLength_loop 8 i.

(** [appendLength]: for ; n > 0; n-- { dst = append(dst, byte(i>>uint((n-1)*8))) } *)
Fixpoint appendLength_loop (n : nat) (i : Z) : bytes :=
  match n with
  | O => []
  | S n' => byte_of_Z (Z.shiftr i (Z.of_nat n' * 8)) :: appendLength_loop n' i
  end.

Definition appendLength (dst : bytes) (i : Z) : bytes :=
  dst ++ appendLength_loop (Z.to_nat (lengthLength i)) i.

Record tagAndLength : Type := mkTagAndLength {
  tl_class : Z;
  tl_tag : Z;
  tl_length : Z;
  tl_isCompound : bool
}.

Definition appendTagAndLength (dst : bytes) (t : tagAndLength) : bytes :=
  let b := Z.shiftl (tl_class t) 6 mod 256 in
  let b := if tl_isCompound t then Z.lor b 32 else b in
  let dst :=
    if 31 <=? tl_tag t
    then appendBase128Int (dst ++ [byte_of_Z (Z.lor b 31)]) (tl_tag t)
    else dst ++ [byte_of_Z (Z.lor b (tl_tag t mod 256))] in
  if 128 <=? tl_length t
  then appendLength (dst ++ [byte_of_Z (Z.lor 128 (lengthLength (tl_length t)))]) (tl_length t)
  else dst ++ [byte_of_Z (tl_length t)].

(** [int64Encoder.Len] *)
Fixpoint int64Len_pos (fuel : nat) (i : Z) : Z :=
  match fuel with
  | O => 0
  | S fuel' => if 127 <? i then 1 + int64Len_pos fuel' (Z.shiftr i 8) else 0
  end.

Fixpoint int64Len_neg (fuel : nat) (i : Z) : Z :=
  match fuel with
  | O => 0
  | S fuel' => if i <? -128 then 1 + int64Len_neg fuel' (Z.shiftr i 8) else 0
  end.

Definition int64Len (i : Z) : Z := 1 + int64Len_pos 8 i + int64Len_neg 8 i.

(** [int64Encoder.Encode]: dst[j] = byte(i >> uint((n-1-j)*8)) *)
Fixpoint int64Encode_loop (n : nat) (i : Z) : bytes :=
  match n with
  | O => []
  | S n' => byte_of_Z (Z.shiftr i (Z.of_nat n' * 8)) :: int64Encode_loop n' i
  end.

Definition int64Encode (i : Z) : bytes := int64Encode_loop (Z.to_nat (int64Len i)) i.

(** [makeObjectIdentifier] followed by [oidEncoder.Encode] *)
Definition makeObjectIdentifier (oid : ObjectIdentifier) : result bytes :=
  match oid with
  | o0 :: o1 :: rest =>
      if (2 <? o0) || ((o0 <? 2) && (40 <=? o1))
      then Err (StructuralError "invalid object identifier")
      else Ok (fold_left appendBase128Int rest (appendBase128Int [] (o0 * 40 + o1)))
  | _ => Err (StructuralError "invalid object identifier")
  end.

(** [getUniversalType]: tag number and compound bit of a Go type; a
    [RawValue] matches any type and is handled before this is consulted.  A
    slice is a SET only when the name of its type ends in "SET"
    ([strings.HasSuffix(t.Name(), "SET")]); the slice types marshalled here,
    [[]interface{}] and [[]asn1.RawValue], have no name and are SEQUENCEs. *)
Definition getUniversalType (v : value) : Z * bool :=
  match v with
  | VInt _ => (TagInteger, false)
  | VObjectIdentifier _ => (TagOID, false)
  | VRawValue _ => (-1, false)
  | VSlice _ => (TagSequence, true)
  | VStruct _ => (TagSequence, true)
  end.

(** [reflect.DeepEqual(v.Interface(), reflect.Zero(v.Type()).Interface())];
    a list stands for a slice, the empty list for the nil slice. *)
Fixpoint isZero (v : value) : bool :=
  match v with
  | VInt i => i =? 0
  | VObjectIdentifier oid => match oid with [] => true | _ => false end
  | VRawValue rv =>
      (Class rv =? 0) && (Tag rv =? 0) && negb (IsCompound rv)
      && match Bytes rv with [] => true | _ => false end
      && match FullBytes rv with [] => true | _ => false end
  | VSlice elems => match elems with [] => true | _ => false end
  | VStruct fields => forallb (fun f => isZero (snd f)) fields
  end.

(** A [taggedEncoder]: identifier and length octets, then the body. *)
Definition taggedEncoder (class tag : Z) (isCompound : bool) (body : bytes) : bytes :=
  appendTagAndLength []
    {| tl_class := class; tl_tag := tag;
       tl_length := Z.of_nat (length body); tl_isCompound := isCompound |} ++ body.

(** [makeField] with [makeBody] inlined per kind.  In the order of
    marshal.go: an optional field holding the zero value of its type is left
    out; then
    [if v.Type() == rawValueType { rv := v.Interface().(RawValue);
       if len(rv.FullBytes) != 0 { return bytesEncoder(rv.FullBytes), nil } ... }],
    so a [RawValue] whose [FullBytes] is not empty is emitted as those bytes,
    whatever its [Class], [Tag] and [IsCompound] and whatever the field's tag
    options say; otherwise the body is tagged with the universal tag of the
    type, or with the context-specific tag of the field.  With an explicit
    tag the outer length is the body length plus the length of the inner
    identifier and length octets, which is the length of the inner
    element. *)
Fixpoint makeField (v : value) (params : fieldParameters) {struct v} : result bytes :=
  if optional params && isZero v then Ok [] else
  match v with
  | VRawValue rv =>
      match FullBytes rv with
      | _ :: _ => Ok (FullBytes rv)
      | [] => Ok (taggedEncoder (Class rv) (Tag rv) (IsCompound rv) (Bytes rv))
      end
  | _ =>
      let body : result bytes :=
        match v with
        | VInt i => Ok (int64Encode i)
        | VObjectIdentifier oid => makeObjectIdentifier oid
        | VRawValue _ => Ok []
        | VSlice elems =>
            (fix elements (l : list value) : result bytes :=
               match l with
               | [] => Ok []
               | x :: l' =>
                   match makeField x noParams with
                   | Err e => Err e
                   | Ok bx =>
                       match elements l' with
                       | Err e => Err e
                       | Ok bl => Ok (bx ++ bl)
                       end
                   end
               end) elems
        | VStruct fields =>
            (fix members (l : list (fieldParameters * value)) : result bytes :=
               match l with
               | [] => Ok []
               | (p, x) :: l' =>
                   match makeField x p with
                   | Err e => Err e
                   | Ok bx =>
                       match members l' with
                       | Err e => Err e
                       | Ok bl => Ok (bx ++ bl)
                       end
                   end
               end) fields
        end in
      match body with
      | Err e => Err e
      | Ok body =>
          let (utag, isCompound) := getUniversalType v in
          match tag params with
          | Some ptag =>
              if explicit params
              then Ok (taggedEncoder ClassContextSpecific ptag true
                         (taggedEncoder ClassUniversal utag isCompound body))
              else Ok (taggedEncoder ClassContextSpecific ptag isCompound body)
          | None => Ok (taggedEncoder ClassUniversal utag isCompound body)
          end
      end
  end.

(** The body of a struct: its fields in order ([makeBody], case
    [reflect.Struct]). *)
Fixpoint makeFields (l : list (fieldParameters * value)) : result bytes :=
  match l with
  | [] => Ok []
  | (p, x) :: l' =>
      match makeField x p with
      | Err e => Err e
      | Ok bx =>
          match makeFields l' with
          | Err e => Err e
          | Ok bl => Ok (bx ++ bl)
          end
      end
  end.

(** The body of a slice: its elements in order ([makeBody], case
    [reflect.Slice]). *)
Fixpoint makeElements (l : list value) : result bytes :=
  match l with
  | [] => Ok []
  | x :: l' =>
      match makeField x noParams with
      | Err e => Err e
      | Ok bx =>
          match makeElements l' with
          | Err e => Err e
          | Ok bl => Ok (bx ++ bl)
          end
      end
  end.

(** [asn1.Marshal(val)] is [MarshalWithParams(val, "")]. *)
Definition Marshal (v : value) : result bytes := makeField v noParams.

End asn1.

(** ** encoding/base64: [StdEncoding.EncodeToString] *)
Module base64.

Definition encodeStd : string :=
  "ABCDEFGHIJKLMNOPQRSTUVWXYZabcdefghijklmnopqrstuvwxyz0123456789+/".

Definition StdPadding : ascii := "="%char.

(** [enc.encode[val>>shift&0x3F]] *)
Definition encodeAt (val shift : Z) : ascii :=
  match String.get (Z.to_nat (Z.land (Z.shiftr val shift) 63)) encodeStd with
  | Some c => c
  | None => StdPadding
  end.

(** [Encoding.Encode]: full three-byte groups, then the remaining one or
    two bytes with padding. *)
Fixpoint EncodeToString (src : bytes) : string :=
  match src with
  | [] => EmptyString
  | [b0] =>
      let val := Z.shiftl (Z_of_byte b0) 16 in
      String (encodeAt val 18) (String (encodeAt val 12)
        (String StdPadding (String StdPadding EmptyString)))
  | [b0; b1] =>
      let val := Z.lor (Z.shiftl (Z_of_byte b0) 16) (Z.shiftl (Z_of_byte b1) 8) in
      String (encodeAt val 18) (String (encodeAt val 12)
        (String (encodeAt val 6) (String StdPadding EmptyString)))
  | b0 :: b1 :: b2 :: rest =>
      let val := Z.lor (Z.lor (Z.shiftl (Z_of_byte b0) 16) (Z.shiftl (Z_of_byte b1) 8))
                       (Z_of_byte b2) in
      String (encodeAt val 18) (String (encodeAt val 12)
        (String (encodeAt val 6) (String (encodeAt val 0) (EncodeToString rest))))
  end.

End base64.

(** ** The standard-library interface

    The carrier types and routines of the Go standard library that package
    [certificates] calls and that are not executed here.  [World] is what the
    routines read and change: the entropy pool behind [rand.Reader] and the
    clock behind [time.Now]. *)
Class GoTypes : Type := {
  World : Type;
  Time : Type;           (* time.Time *)
  URL : Type;            (* *url.URL *)
  PrivateKey : Type;     (* *ecdsa.PrivateKey *)
  PublicKey : Type       (* the dynamic type behind a PublicKey any *)
}.

(** [pem.Block] *)
Record Block : Type := mkBlock {
  Block_Type : string;
  Block_Bytes : bytes
}.

(** [pkix.AttributeTypeAndValue] *)
Record AttributeTypeAndValue : Type := mkAttributeTypeAndValue {
  Attr_Type : asn1.ObjectIdentifier;
  Attr_Value : string
}.

(** [pkix.Name], the fields this package fills in. *)
Record Name : Type := mkName {
  CommonName : string;
  Country : list string;
  Province : list string;
  Locality : list string;
  Organization : list string;
  OrganizationalUnit : list string;
  ExtraNames : list AttributeTypeAndValue
}.

(** [x509.SignatureAlgorithm] *)
Inductive SignatureAlgorithm : Type :=
| UnknownSignatureAlgorithm
| SHA256WithRSA
| SHA384WithRSA
| SHA512WithRSA
| ECDSAWithSHA1
| ECDSAWithSHA256
| ECDSAWithSHA384
| ECDSAWithSHA512
| PureEd25519.

(** [x509.KeyUsage] is a bit mask. *)
Definition KeyUsageDigitalSignature : Z := Z.shiftl 1 0.
Definition KeyUsageContentCommitment : Z := Z.shiftl 1 1.

(** [x509.CertificateRequest] *)
Record CertificateRequest `{GoTypes} : Type := mkCertificateRequest {
  CR_Subject : Name;
  CR_SignatureAlgorithm : SignatureAlgorithm;
  CR_DNSNames : list string;
  CR_PublicKey : option PublicKey;
  CR_Signature : bytes
}.

(** [x509.Certificate], the fields of the template; every other field keeps
    its zero value. *)
Record Certificate `{GoTypes} : Type := mkCertificate {
  SerialNumber : Z;
  Subject : Name;
  NotBefore : Time;
  NotAfter : Time;
  KeyUsage : Z;
  BasicConstraintsValid : bool;
  DNSNames : list string;
  URIs : list URL
}.

(** [elliptic.Curve] *)
Inductive Curve : Type := P224 | P256 | P384 | P521.

(** An [io.Reader] used as a source of randomness. *)
Inductive Reader : Type := rand_Reader.

(** [PrivateKey_Public] ([priv.Public()]), [CertificateRequest_CheckSignature]
    ([csr.CheckSignature()]) and [Time_After] ([t.After(u)]) are not called
    by the package; the properties name them. *)
Class GoLib `{GoTypes} : Type := {
  (* crypto/ecdsa *)
  ecdsa_GenerateKey : Curve -> Reader -> World -> result PrivateKey * World;
  PrivateKey_Public : PrivateKey -> PublicKey;
  (* crypto/rand *)
  rand_Int : Reader -> Z -> World -> result Z * World;
  (* crypto/x509 *)
  x509_MarshalPKCS8PrivateKey : PrivateKey -> result bytes;
  x509_CreateCertificateRequest :
    Reader -> CertificateRequest -> PrivateKey -> World -> result bytes * World;
  x509_ParseCertificateRequest : bytes -> result CertificateRequest;
  CertificateRequest_CheckSignature : CertificateRequest -> option error;
  x509_CreateCertificate :
    Reader -> Certificate -> Certificate -> option PublicKey -> PrivateKey ->
    World -> result bytes * World;
  x509_ParseCertificate : bytes -> result Certificate;
  (* encoding/pem *)
  pem_EncodeToMemory : Block -> string;
  pem_Decode : string -> option Block;
  (* net/url *)
  url_Parse : string -> result URL;
  URL_Scheme : URL -> string;
  (* time *)
  time_Now : World -> Time * World;
  Time_AddDate : Time -> Z -> Z -> Z -> Time;
  Time_After : Time -> Time -> bool
}.

(** ** Function bodies with early return

    A Go function body runs statements in order and leaves at the first
    [return].  [Body R A] is a statement sequence inside a function whose
    return type is [R]: it either goes on with a value of type [A] or has
    returned an [R]; the world is threaded through. *)
Section Body.
Context `{GoTypes}.

Definition Body (R A : Type) : Type := World -> (A + R) * World.

Definition pureB {R A} (a : A) : Body R A := fun w => (inl a, w).

Definition Return {R A} (r : R) : Body R A := fun w => (inr r, w).

Definition bindB {R A B} (c : Body R A) (k : A -> Body R B) : Body R B :=
  fun w =>
    match c w with
    | (inl a, w') => k a w'
    | (inr r, w') => (inr r, w')
    end.

(** [x, err := f(...); if err != nil { return onErr(err) }] for a routine
    that uses the world. *)
Definition call {R A} (f : World -> result A * World) (onErr : error -> R) : Body R A :=
  fun w =>
    match f w with
    | (Ok a, w') => (inl a, w')
    | (Err e, w') => (inr (onErr e), w')
    end.

(** The same for a routine that does not. *)
Definition try {R A} (r : result A) (onErr : error -> R) : Body R A :=
  fun w =>
    match r with
    | Ok a => (inl a, w)
    | Err e => (inr (onErr e), w)
    end.

(** A function whose last statement is a [return]. *)
Definition run {R} (b : Body R R) : World -> R * World :=
  fun w =>
    match b w with
    | (inl r, w') => (r, w')
    | (inr r, w') => (r, w')
    end.

End Body.

Notation "x <- c ;; k" := (bindB c (fun x => k))
  (at level 20, c at level 99, k at level 200, only parsing).

(** ** Package certificates *)
Section Certificates.
Context `{L : GoLib}.

(** KeyPair holds the private key and its PEM representation *)
Record KeyPair : Type := mkKeyPair {
  KP_PrivateKey : PrivateKey;
  PrivateKeyPEM : string
}.

(** CSRResult holds the CSR and its PEM representation *)
Record CSRResult : Type := mkCSRResult {
  CSR : CertificateRequest;
  CSRPEM : string
}.

(** [*cobra.Command], the fields [GenerateCertsCmd] sets. *)
Record Command : Type := mkCommand {
  Use : string;
  Short : string;
  Long : string
}.

Definition GenerateCertsCmd : Command :=
  {| Use := "csr <hash_algorithm>";
     Short := "Generates private key, csr and signed certificate to be used";
     Long := "Generate a CSR and a signed certificate based on an specific hashing algorithm." |}.

(** generateECDSAKeyPair generates an ECDSA key pair using P-256 curve *)
Definition generateECDSAKeyPair : World -> result KeyPair * World :=
  run (
    privateKey <- call (ecdsa_GenerateKey P256 rand_Reader)
                       (fun err => Err (Errorf_w "failed to generate key" err));;
    privateKeyBytes <- try (x509_MarshalPKCS8PrivateKey privateKey)
                           (fun err => Err (Errorf_w "failed to marshal private key" err));;
    let privateKeyPEM :=
      pem_EncodeToMemory {| Block_Type := "PRIVATE KEY"; Block_Bytes := privateKeyBytes |} in
    Return (Ok {| KP_PrivateKey := privateKey; PrivateKeyPEM := privateKeyPEM |})).

(** Lines 420-443 of [createCSR]: the subject. *)
Definition csrSubject (commonName : string) (domainComponent : option string)
    (country state locality organization : string)
    (organizationalUnit : option string) : Name :=
  {| CommonName := commonName;
     Country := [country];
     Province := [state];
     Locality := [locality];
     Organization := [organization];
     OrganizationalUnit :=
       match organizationalUnit with
       | Some ou => [ou]
       | None => []
       end;
     ExtraNames :=
       match domainComponent with
       | Some dc =>
           (* Domain Component OID: 0.9.2342.19200300.100.1.25 *)
           let dcOID : asn1.ObjectIdentifier := [0; 9; 2342; 19200300; 100; 1; 25] in
           [ {| Attr_Type := dcOID; Attr_Value := dc |} ]
       | None => []
       end |}.

(** One round of the loop of lines 455-460: [uniqueDNS] is the
    [map[string]bool], whose lookup of an absent key is [false]. *)
Definition dedupStep (st : gmap string bool * list string) (name : string)
    : gmap string bool * list string :=
  let '(uniqueDNS, finalDNS) := st in
  if negb (default false (uniqueDNS !! name))
  then (<[name := true]> uniqueDNS, finalDNS ++ [name])
  else (uniqueDNS, finalDNS).

(** Lines 445-460 of [createCSR]: the DNS names for the SAN. *)
Definition csrDNSNames (commonName : string) (altNames : list string) : list string :=
  let dnsNames := [] ++ [commonName] in
  let dnsNames := dnsNames ++ altNames in
  snd (fold_left dedupStep dnsNames (∅, [])).

(** Lines 462-467 of [createCSR]: the CSR template. *)
Definition csrTemplate (commonName : string) (domainComponent : option string)
    (altNames : list string) (country state locality organization : string)
    (organizationalUnit : option string) : CertificateRequest :=
  {| CR_Subject := csrSubject commonName domainComponent country state locality
                              organization organizationalUnit;
     CR_SignatureAlgorithm := ECDSAWithSHA256;
     CR_DNSNames := csrDNSNames commonName altNames;
     CR_PublicKey := None;
     CR_Signature := [] |}.

(** createCSR creates a Certificate Signing Request *)
Definition createCSR (keyPair : KeyPair) (commonName : string)
    (domainComponent : option string) (altNames : list string)
    (country state locality organization : string)
    (organizationalUnit : option string) : World -> result CSRResult * World :=
  run (
    let template := csrTemplate commonName domainComponent altNames country state
                                locality organization organizationalUnit in
    csrBytes <- call (x509_CreateCertificateRequest rand_Reader template
                        (KP_PrivateKey keyPair))
                     (fun err => Err (Errorf_w "failed to create CSR" err));;
    csr <- try (x509_ParseCertificateRequest csrBytes)
               (fun err => Err (Errorf_w "failed to parse CSR" err));;
    let csrPEM :=
      pem_EncodeToMemory {| Block_Type := "CERTIFICATE REQUEST"; Block_Bytes := csrBytes |} in
    Return (Ok {| CSR := csr; CSRPEM := csrPEM |})).

(** Lines 521-529 of [signCSRToPKCS7]: the certificate template. *)
Definition certTemplate (csr : CertificateRequest) (serialNumber : Z)
    (notBefore notAfter : Time) : Certificate :=
  {| SerialNumber := serialNumber;
     Subject := CR_Subject csr;
     NotBefore := notBefore;
     NotAfter := notAfter;
     KeyUsage := Z.lor KeyUsageDigitalSignature KeyUsageContentCommitment;
     BasicConstraintsValid := true;
     DNSNames := CR_DNSNames csr;
     URIs := [] |}.

(** One round of the loop of lines 532-536:
    [template.URIs = append(template.URIs, u)] when the name parses and has a
    scheme. *)
Definition addURI (template : Certificate) (name : string) : Certificate :=
  match url_Parse name with
  | Ok u =>
      if bool_decide (URL_Scheme u ≠ EmptyString)
      then {| SerialNumber := SerialNumber template;
              Subject := Subject template;
              NotBefore := NotBefore template;
              NotAfter := NotAfter template;
              KeyUsage := KeyUsage template;
              BasicConstraintsValid := BasicConstraintsValid template;
              DNSNames := DNSNames template;
              URIs := URIs template ++ [u] |}
      else template
  | Err _ => template
  end.

(** The PKCS#7 structures declared inside [signCSRToPKCS7], as the values
    handed to [asn1.Marshal]: a struct is its fields in order, each with the
    options of its [asn1] struct tag. *)
Definition contentInfo (ContentType : asn1.ObjectIdentifier) (Content : asn1.RawValue)
    : asn1.value :=
  asn1.VStruct
    [ (asn1.noParams, asn1.VObjectIdentifier ContentType);
      ({| asn1.optional := true; asn1.explicit := true; asn1.tag := Some 0 |},
       asn1.VRawValue Content) ].

Definition signedData (Version : Z) (DigestAlgorithms : asn1.RawValue)
    (ContentInfo : asn1.value) (Certificates CRLs SignerInfos : asn1.RawValue)
    : asn1.value :=
  asn1.VStruct
    [ (asn1.noParams, asn1.VInt Version);
      (asn1.noParams, asn1.VRawValue DigestAlgorithms);
      (asn1.noParams, ContentInfo);
      ({| asn1.optional := true; asn1.explicit := false; asn1.tag := Some 0 |},
       asn1.VRawValue Certificates);
      ({| asn1.optional := true; asn1.explicit := false; asn1.tag := Some 1 |},
       asn1.VRawValue CRLs);
      (asn1.noParams, asn1.VRawValue SignerInfos) ].

Definition oidSignedData : asn1.ObjectIdentifier := [1; 2; 840; 113549; 1; 7; 2].
Definition oidData : asn1.ObjectIdentifier := [1; 2; 840; 113549; 1; 7; 1].

(** [emptySet, _ := asn1.Marshal([]interface{}{})]: the error is dropped. *)
Definition emptySet : bytes :=
  match asn1.Marshal (asn1.VSlice []) with
  | Ok b => b
  | Err _ => []
  end.

Definition GoPair : Type := (string * option error)%type.

(** Lines 556-623 of [signCSRToPKCS7]: the PKCS#7 structure around the
    certificate, marshalled. *)
Definition marshalPKCS7 (certBytes : bytes) : Body GoPair bytes :=
  (* Content info with data type *)
  let contentInfoData := contentInfo oidData asn1.zeroRawValue in
  (* Wrap certificate in a SET *)
  certSet <- try (asn1.Marshal
                    (asn1.VSlice
                       [asn1.VRawValue
                          {| asn1.Class := 0; asn1.Tag := 0; asn1.IsCompound := false;
                             asn1.Bytes := []; asn1.FullBytes := certBytes |}]))
                 (fun err => (EmptyString,
                              Some (Errorf_w "failed to marshal certificate set" err)));;
  (* Create signed data *)
  let sd :=
    signedData 1
      {| asn1.Class := 0; asn1.Tag := 0; asn1.IsCompound := false;
         asn1.Bytes := []; asn1.FullBytes := emptySet |}
      contentInfoData
      {| asn1.Class := 2; asn1.Tag := 0; asn1.IsCompound := true;
         asn1.Bytes := []; asn1.FullBytes := certSet |}
      asn1.zeroRawValue
      {| asn1.Class := 0; asn1.Tag := 0; asn1.IsCompound := false;
         asn1.Bytes := []; asn1.FullBytes := emptySet |} in
  (* Marshal signed data *)
  signedDataBytes <- try (asn1.Marshal sd)
                         (fun err => (EmptyString,
                                      Some (Errorf_w "failed to marshal signed data" err)));;
  (* Create outer content info *)
  let ci :=
    contentInfo oidSignedData
      {| asn1.Class := 2; asn1.Tag := 0; asn1.IsCompound := true;
         asn1.Bytes := signedDataBytes; asn1.FullBytes := [] |} in
  (* Marshal final PKCS#7 *)
  try (asn1.Marshal ci)
      (fun err => (EmptyString, Some (Errorf_w "failed to marshal PKCS#7" err))).

(** signCSRToPKCS7 signs a CSR and returns a certificate in PKCS#7 format *)
Definition signCSRToPKCS7 (csrPEM : string) (signingPrivateKey : PrivateKey)
    (validityDays : Z) : World -> GoPair * World :=
  run (
    (* Parse CSR from PEM *)
    block <- (fun w => match pem_Decode csrPEM with
                       | None => (inr (EmptyString,
                                       Some (errorString "failed to decode CSR PEM")), w)
                       | Some block => (inl block, w)
                       end);;
    csr <- try (x509_ParseCertificateRequest (Block_Bytes block))
               (fun err => (EmptyString, Some (Errorf_w "failed to parse CSR" err)));;
    (* Generate random serial number *)
    serialNumber <- call (rand_Int rand_Reader (Z.shiftl 1 128))
                         (fun err => (EmptyString,
                                      Some (Errorf_w "failed to generate serial number" err)));;
    (* Set validity period *)
    notBefore <- (fun w => let '(t, w') := time_Now w in (inl t, w'));;
    let notAfter := Time_AddDate notBefore 0 0 validityDays in
    (* Create certificate template *)
    let template := certTemplate csr serialNumber notBefore notAfter in
    (* Add URIs if present in alt names *)
    let template := fold_left addURI (CR_DNSNames csr) template in
    (* Create self-signed certificate *)
    certBytes <- call (x509_CreateCertificate rand_Reader
                         template
                         template (* Self-signed, so parent is same as template *)
                         (CR_PublicKey csr)
                         signingPrivateKey)
                      (fun err => (EmptyString,
                                   Some (Errorf_w "failed to create certificate" err)));;
    (* Parse the certificate *)
    _ <- try (x509_ParseCertificate certBytes)
             (fun err => (EmptyString, Some (Errorf_w "failed to parse certificate" err)));;
    (* Create PKCS#7 structure *)
    pkcs7DER <- marshalPKCS7 certBytes;;
    (* Base64 encode *)
    let pkcs7Base64 := base64.EncodeToString pkcs7DER in
    Return (pkcs7Base64, None)).

Definition newline : string := String (ascii_of_nat 10) EmptyString.

(** [CertificateGeneration] prints to standard output; the printed pieces
    are returned in order.  Neither [cmd] nor [args] is used. *)
Definition CertificateGeneration (cmd : Command) (args : list string)
    : World -> list string * World :=
  fun w =>
    (* Generate key pair *)
    match generateECDSAKeyPair w with
    | (Err err, w1) => (["Error generating key pair: " +:+ Error err +:+ newline], w1)
    | (Ok keyPair, w1) =>
        let out := ["Generated ECDSA key pair with P-256 curve" +:+ newline;
                    "Private key PEM:" +:+ newline +:+ PrivateKeyPEM keyPair +:+ newline] in
        (* Create CSR *)
        let domainComponent := "CSO"%string in
        match createCSR keyPair "USAMZS00000000000000000000001372070201E"
                (Some domainComponent) ["https://www.powerflex.com"%string]
                "US" "California" "San Diego" "AMZ" None w1 with
        | (Err err, w2) => (out ++ ["Error creating CSR: " +:+ Error err +:+ newline], w2)
        | (Ok csrResult, w2) =>
            let out := out ++ ["CSR PEM:" +:+ newline +:+ CSRPEM csrResult +:+ newline] in
            (* Sign CSR and get PKCS#7 certificate *)
            match signCSRToPKCS7 (CSRPEM csrResult) (KP_PrivateKey keyPair) 365 w2 with
            | ((_, Some err), w3) =>
                (out ++ ["Error signing CSR: " +:+ Error err +:+ newline], w3)
            | ((pkcs7Cert, None), w3) =>
                (out ++ ["PKCS#7 Certificate (Base64):" +:+ newline +:+ pkcs7Cert +:+ newline], w3)
            end
        end
    end.

End Certificates.

(** * Definitions used to state the properties *)

(** ** Deduplication *)

(** Deduplication that keeps the first occurrence of every entry, in the
    words of the specification: the head stays and its later copies go. *)
Fixpoint dedupFirst (l : list string) : list string :=
  match l with
  | [] => []
  | x :: l' => x :: filter (λ y, y ≠ x) (dedupFirst l')
  end.

(** The loop invariant of lines 455-460: the map holds exactly the names
    already appended. *)
Definition seen (uniqueDNS : gmap string bool) (finalDNS : list string) : Prop :=
  ∀ x, default false (uniqueDNS !! x) = true ↔ x ∈ finalDNS.

(** ** DER layout *)

(** Definite-length octets of DER, as [appendTagAndLength] writes them. *)
Definition derLength (len : Z) : bytes :=
  if 128 <=? len
  then byte_of_Z (Z.lor 128 (asn1.lengthLength len))
       :: asn1.appendLength_loop (Z.to_nat (asn1.lengthLength len)) len
  else [byte_of_Z len].

(** One DER element: identifier octet, length octets, contents. *)
Definition der (identifier : byte) (contents : bytes) : bytes :=
  identifier :: derLength (Z.of_nat (length contents)) ++ contents.

(** INTEGER 1 *)
Definition versionDER : bytes := der x02 [x01].
(** OBJECT IDENTIFIER 1.2.840.113549.1.7.1 (data) *)
Definition oidDataDER : bytes :=
  der x06 [x2a; x86; x48; x86; xf7; x0d; x01; x07; x01].
(** OBJECT IDENTIFIER 1.2.840.113549.1.7.2 (signedData) *)
Definition oidSignedDataDER : bytes :=
  der x06 [x2a; x86; x48; x86; xf7; x0d; x01; x07; x02].

(** What [marshalPKCS7] writes around the certificate bytes: every element
    of the signed data is a universal SEQUENCE (identifier 0x30), the
    certificates field included. *)
Definition signedDataLayout (certBytes : bytes) : bytes :=
  der x30 (versionDER ++ der x30 [] ++ der x30 oidDataDER
           ++ der x30 certBytes ++ der x30 []).

Definition envelopeLayout (certBytes : bytes) : bytes :=
  der x30 (oidSignedDataDER ++ der xa0 (signedDataLayout certBytes)).

(** Modelled from the spec: the signed-data envelope as the specification
    describes it.  Digest algorithms and signer infos are empty SETs
    (identifier 0x31), the certificates field holds the certificate under the
    context-specific constructed tag 0 (identifier 0xa0). *)
Definition specSignedData (certBytes : bytes) : bytes :=
  der x30 (versionDER ++ der x31 [] ++ der x30 oidDataDER
           ++ der xa0 certBytes ++ der x31 []).

Definition specEnvelope (certBytes : bytes) : bytes :=
  der x30 (oidSignedDataDER ++ der xa0 (specSignedData certBytes)).

(** ** Runs of [signCSRToPKCS7] *)
Section RunDefinitions.
Context `{L : GoLib}.

(** The template handed to [x509.CreateCertificate], after the URI loop. *)
Definition signingTemplate (csr : CertificateRequest) (serialNumber : Z)
    (notBefore : Time) (validityDays : Z) : Certificate :=
  fold_left addURI (CR_DNSNames csr)
    (certTemplate csr serialNumber notBefore (Time_AddDate notBefore 0 0 validityDays)).

(** The steps of a run up to the serial number, each one having succeeded:
    the PEM block decodes, the request parses to [csr], and [rand.Int] with
    bound [1 << 128] gives [serialNumber] and leaves the world [w1]. *)
Inductive reachesSerial (csrPEM : string) (w : World)
    (csr : CertificateRequest) (serialNumber : Z) (w1 : World) : Prop :=
| ReachesSerial (block : Block) :
    pem_Decode csrPEM = Some block →
    x509_ParseCertificateRequest (Block_Bytes block) = Ok csr →
    rand_Int rand_Reader (Z.shiftl 1 128) w = (Ok serialNumber, w1) →
    reachesSerial csrPEM w csr serialNumber w1.

(** A name of the CSR that [url.Parse] accepts with a scheme. *)
Definition absoluteURI (name : string) : option URL :=
  match url_Parse name with
  | Ok u => if bool_decide (URL_Scheme u ≠ EmptyString) then Some u else None
  | Err _ => None
  end.

(** The error returns of [signCSRToPKCS7] in the order of the statements:
    each one is taken when the steps before it have succeeded and its own
    step fails.  The index is the error returned and the world left. *)
Inductive signFailure (csrPEM : string) (key : PrivateKey) (validityDays : Z)
    (w : World) : error → World → Prop :=
| fail_decode :
    pem_Decode csrPEM = None →
    signFailure csrPEM key validityDays w
      (errorString "failed to decode CSR PEM") w
| fail_parseCSR block e :
    pem_Decode csrPEM = Some block →
    x509_ParseCertificateRequest (Block_Bytes block) = Err e →
    signFailure csrPEM key validityDays w (Errorf_w "failed to parse CSR" e) w
| fail_serial block csr e w1 :
    pem_Decode csrPEM = Some block →
    x509_ParseCertificateRequest (Block_Bytes block) = Ok csr →
    rand_Int rand_Reader (Z.shiftl 1 128) w = (Err e, w1) →
    signFailure csrPEM key validityDays w
      (Errorf_w "failed to generate serial number" e) w1
| fail_create csr serialNumber w1 notBefore w2 e w3 :
    reachesSerial csrPEM w csr serialNumber w1 →
    time_Now w1 = (notBefore, w2) →
    (let template := signingTemplate csr serialNumber notBefore validityDays in
     x509_CreateCertificate rand_Reader template template (CR_PublicKey csr) key w2
     = (Err e, w3)) →
    signFailure csrPEM key validityDays w
      (Errorf_w "failed to create certificate" e) w3
| fail_parseCert csr serialNumber w1 notBefore w2 certBytes e w3 :
    reachesSerial csrPEM w csr serialNumber w1 →
    time_Now w1 = (notBefore, w2) →
    (let template := signingTemplate csr serialNumber notBefore validityDays in
     x509_CreateCertificate rand_Reader template template (CR_PublicKey csr) key w2
     = (Ok certBytes, w3)) →
    x509_ParseCertificate certBytes = Err e →
    signFailure csrPEM key validityDays w
      (Errorf_w "failed to parse certificate" e) w3.

(** The library with its signature check and its public-key derivation
    replaced; everything else as in [L]. *)
Definition withKeyChecks
    (checkSignature : CertificateRequest → option error)
    (public : PrivateKey → PublicKey) : GoLib :=
  {| ecdsa_GenerateKey := ecdsa_GenerateKey;
     PrivateKey_Public := public;
     rand_Int := rand_Int;
     x509_MarshalPKCS8PrivateKey := x509_MarshalPKCS8PrivateKey;
     x509_CreateCertificateRequest := x509_CreateCertificateRequest;
     x509_ParseCertificateRequest := x509_ParseCertificateRequest;
     CertificateRequest_CheckSignature := checkSignature;
     x509_CreateCertificate := x509_CreateCertificate;
     x509_ParseCertificate := x509_ParseCertificate;
     pem_EncodeToMemory := pem_EncodeToMemory;
     pem_Decode := pem_Decode;
     url_Parse := url_Parse;
     URL_Scheme := URL_Scheme;
     time_Now := time_Now;
     Time_AddDate := Time_AddDate;
     Time_After := Time_After |}.

End RunDefinitions.

(** ** A stand-in library

    A small deterministic instance of [GoLib], on which the package's
    functions run to a value.  Keys are names, the public key of [k] is
    ["pub:" ++ k]; a request is the lines public key, signer's public key,
    common name and DNS names; its signature checks when the first two lines
    agree; PEM text is ["PEM:"] before the payload; time is in seconds. *)
Module Stub.

Record world : Type := mkWorld {
  entropy : Z;
  clock : Z
}.

Definition types : GoTypes :=
  {| World := world;
     Time := Z;
     URL := (string * string)%type;
     PrivateKey := string;
     PublicKey := string |}.
#[local] Existing Instance types.

Definition stir (w : world) : world :=
  {| entropy := (entropy w * 6364136223846793005 + 1442695040888963407) mod 2 ^ 130;
     clock := clock w |}.

Definition lf : ascii := ascii_of_nat 10.

Fixpoint splitOn (sep : ascii) (s : string) : list string :=
  match s with
  | EmptyString => [EmptyString]
  | String c s' =>
      if Ascii.eqb c sep then EmptyString :: splitOn sep s'
      else match splitOn sep s' with
           | [] => [String c EmptyString]
           | x :: l => String c x :: l
           end
  end.

Definition joinLines (l : list string) : string :=
  match l with
  | [] => EmptyString
  | x :: l' => fold_left (fun acc y => acc +:+ String lf y) l' x
  end.

Definition public (k : string) : string := "pub:" +:+ k.

Definition emptyName : Name :=
  {| CommonName := EmptyString; Country := []; Province := []; Locality := [];
     Organization := []; OrganizationalUnit := []; ExtraNames := [] |}.

Definition createCertificateRequest (r : Reader) (template : CertificateRequest)
    (priv : string) (w : world) : result bytes * world :=
  (Ok (list_byte_of_string
         (joinLines (public priv :: public priv
                     :: CommonName (CR_Subject template) :: CR_DNSNames template))),
   stir w).

Definition parseCertificateRequest (b : bytes) : result CertificateRequest :=
  match splitOn lf (string_of_list_byte b) with
  | pub :: signer :: cn :: names =>
      Ok {| CR_Subject :=
              {| CommonName := cn; Country := []; Province := []; Locality := [];
                 Organization := []; OrganizationalUnit := []; ExtraNames := [] |};
            CR_SignatureAlgorithm := ECDSAWithSHA256;
            CR_DNSNames := names;
            CR_PublicKey := Some pub;
            CR_Signature := list_byte_of_string signer |}
  | _ => Err (errorString "asn1: syntax error: data truncated")
  end.

Definition checkSignature (csr : CertificateRequest) : option error :=
  match CR_PublicKey csr with
  | Some pub =>
      if bool_decide (pub = string_of_list_byte (CR_Signature csr)) then None
      else Some (errorString "x509: ECDSA verification failure")
  | None => Some (errorString "x509: unsupported public key")
  end.

Definition createCertificate (r : Reader) (template parent : Certificate)
    (pub : option string) (priv : string) (w : world) : result bytes * world :=
  match pub with
  | None => (Err (errorString "x509: unsupported public key type: <nil>"), w)
  | Some p =>
      (Ok (der x30 (list_byte_of_string
                      (CommonName (Subject template) +:+ "|" +:+ p +:+ "|" +:+ public priv))),
       stir w)
  end.

Definition parseCertificate (b : bytes) : result Certificate :=
  match b with
  | x30 :: _ =>
      Ok {| SerialNumber := 0; Subject := emptyName; NotBefore := 0; NotAfter := 0;
            KeyUsage := 0; BasicConstraintsValid := false; DNSNames := []; URIs := [] |}
  | _ => Err (errorString "x509: malformed certificate")
  end.

Definition encodeToMemory (b : Block) : string :=
  "PEM:" +:+ string_of_list_byte (Block_Bytes b).

Definition decode (s : string) : option Block :=
  if String.prefix "PEM:" s
  then Some {| Block_Type := EmptyString;
               Block_Bytes := list_byte_of_string
                                (String.substring 4 (String.length s - 4) s) |}
  else None.

Definition parseURL (s : string) : result (string * string) :=
  match String.index 0 ":" s with
  | Some O => Err (errorString "missing protocol scheme")
  | Some i => Ok (String.substring 0 i s,
                  String.substring (S i) (String.length s - S i) s)
  | None => Ok (EmptyString, s)
  end.

Definition randInt (r : Reader) (max : Z) (w : world) : result Z * world :=
  if max <=? 0
  then (Err (errorString "crypto/rand: argument to Int is <= 0"), w)
  else (Ok (entropy w mod max), stir w).

Definition lib : GoLib :=
  {| ecdsa_GenerateKey := fun _ _ w => (Ok "alice"%string, stir w);
     PrivateKey_Public := public;
     rand_Int := randInt;
     x509_MarshalPKCS8PrivateKey := fun k => Ok (list_byte_of_string k);
     x509_CreateCertificateRequest := createCertificateRequest;
     x509_ParseCertificateRequest := parseCertificateRequest;
     CertificateRequest_CheckSignature := checkSignature;
     x509_CreateCertificate := createCertificate;
     x509_ParseCertificate := parseCertificate;
     pem_EncodeToMemory := encodeToMemory;
     pem_Decode := decode;
     url_Parse := parseURL;
     URL_Scheme := fst;
     time_Now := fun w => (clock w, {| entropy := entropy w; clock := clock w + 1 |});
     Time_AddDate := fun t years months days => t + ((years * 365 + months * 30 + days) * 86400);
     Time_After := fun t u => u <? t |}.

(** A request for [example.com] whose key is alice's and which alice
    signed, and one carrying alice's key with a signature by mallory. *)
Definition csrAlice : string :=
  encodeToMemory
    {| Block_Type := "CERTIFICATE REQUEST";
       Block_Bytes := list_byte_of_string
         (joinLines ["pub:alice"; "pub:alice"; "example.com"; "example.com";
                     "https://www.example.com"; ":bad"])%string |}.

Definition csrForged : string :=
  encodeToMemory
    {| Block_Type := "CERTIFICATE REQUEST";
       Block_Bytes := list_byte_of_string
         (joinLines ["pub:alice"; "pub:mallory"; "example.com"; "example.com"])%string |}.

Definition w0 : world := {| entropy := 2 ^ 129 + 12345; clock := 1700000000 |}.

End Stub.

(** The run on alice's request, signed by bob for 365 days. *)
Definition runAlice : GoPair * @World Stub.types :=
  Eval vm_compute in
    @signCSRToPKCS7 Stub.types Stub.lib Stub.csrAlice "bob"%string 365 Stub.w0.

(** * Package time in the UTC location, and the dates package asn1 writes

    The claims about the validity period depend on what [Time.AddDate] and
    [x509.CreateCertificate] do with far-off dates.  This is the arithmetic
    of package time (time.go: [absDate], [Date], [AddDate]) for times in the
    UTC location: a [Time] without monotonic reading is the number of seconds
    since January 1 of year 1, an int64; the nanoseconds, which [AddDate]
    keeps, are left out.  Go's [int] is the 64-bit one. *)
Module GoTime.

Definition uint64 (z : Z) : Z := z mod 2 ^ 64.
Definition int64 (z : Z) : Z := (z + 2 ^ 63) mod 2 ^ 64 - 2 ^ 63.

Definition secondsPerDay : Z := 86400.
Definition daysPer400Years : Z := 365 * 400 + 97.
Definition daysPer100Years : Z := 365 * 100 + 24.
Definition daysPer4Years : Z := 365 * 4 + 1.

(** The year of the absolute epoch, and the seconds between the epochs. *)
Definition absoluteZeroYear : Z := -292277022399.
Definition internalToAbsolute : Z := 9223371966579724800.
Definition unixToInternal : Z := 62135596800.

(** [t.abs()] in UTC: the seconds since the absolute epoch, a uint64. *)
Definition abs (t : Z) : Z := uint64 (t + internalToAbsolute).

(** [year%4 == 0 && (year%100 != 0 || year%400 == 0)] *)
Definition isLeap (year : Z) : bool :=
  (Z.rem year 4 =? 0) && (negb (Z.rem year 100 =? 0) || (Z.rem year 400 =? 0)).

(** [daysBefore[m]]: the days of a non-leap year before month [m+1]. *)
Definition daysBefore (m : Z) : Z :=
  nth (Z.to_nat m) [0; 31; 59; 90; 120; 151; 181; 212; 243; 273; 304; 334; 365] 0.

(** [absDate(abs, true)]: year, month (January is 1) and day of the month. *)
Definition absDate (abs : Z) : Z * Z * Z :=
  (* Split into time and day. *)
  let d := abs / secondsPerDay in
  (* Account for 400 year cycles. *)
  let n := d / daysPer400Years in
  let y := 400 * n in
  let d := d - daysPer400Years * n in
  (* Cut off 100-year cycles: the last cycle has one extra leap day. *)
  let n := d / daysPer100Years in
  let n := n - Z.shiftr n 2 in
  let y := y + 100 * n in
  let d := d - daysPer100Years * n in
  (* Cut off 4-year cycles. *)
  let n := d / daysPer4Years in
  let y := y + 4 * n in
  let d := d - daysPer4Years * n in
  (* Cut off years within a 4-year cycle. *)
  let n := d / 365 in
  let n := n - Z.shiftr n 2 in
  let y := y + n in
  let d := d - 365 * n in
  let year := int64 y + absoluteZeroYear in
  let day := d in
  if isLeap year && (day =? 31 + 29 - 1) then (year, 2, 29)
  else
    let day := if isLeap year && (31 + 29 - 1 <? day) then day - 1 else day in
    (* Estimate month on assumption that every month has 31 days. *)
    let month := day / 31 in
    let end_ := daysBefore (month + 1) in
    let '(month, begin) :=
      if end_ <=? day then (month + 1, end_) else (month, daysBefore month) in
    (year, month + 1, day - begin + 1).

(** [t.Year()] *)
Definition Year (t : Z) : Z := fst (fst (absDate (abs t))).

(** [norm(hi, lo, base)]: [lo] brought into [0, base), the rest moved to [hi]. *)
Definition norm (hi lo base : Z) : Z * Z :=
  let '(hi, lo) :=
    if lo <? 0
    then let n := (- lo - 1) / base + 1 in (int64 (hi - n), int64 (lo + n * base))
    else (hi, lo) in
  if base <=? lo
  then let n := lo / base in (int64 (hi + n), int64 (lo - n * base))
  else (hi, lo).

(** [daysSinceEpoch(year)] *)
Definition daysSinceEpoch (year : Z) : Z :=
  let y := uint64 (year - absoluteZeroYear) in
  (* Add in days from 400-year cycles. *)
  let n := y / 400 in
  let y := y - 400 * n in
  let d := daysPer400Years * n in
  (* Add in 100-year cycles. *)
  let n := y / 100 in
  let y := y - 100 * n in
  let d := d + daysPer100Years * n in
  (* Add in 4-year cycles. *)
  let n := y / 4 in
  let y := y - 4 * n in
  let d := d + daysPer4Years * n in
  (* Add in non-leap years. *)
  d + 365 * y.

(** [Date(year, month, day, hour, min, sec, nsec, UTC)], as the seconds
    the result holds. *)
Definition Date (year month day hour min sec : Z) : Z :=
  (* Normalize month, overflowing into year. *)
  let '(year, m) := norm year (int64 (month - 1)) 12 in
  let month := m + 1 in
  (* Normalize sec, min, hour, overflowing into day. *)
  let '(min, sec) := norm min sec 60 in
  let '(hour, min) := norm hour min 60 in
  let '(day, hour) := norm day hour 24 in
  (* Compute days since the absolute epoch. *)
  let d := daysSinceEpoch year in
  (* Add in days before this month. *)
  let d := uint64 (d + daysBefore (month - 1)) in
  let d := if isLeap year && (3 <=? month) then uint64 (d + 1) else d in
  (* Add in days before today. *)
  let d := uint64 (d + uint64 (day - 1)) in
  (* Add in time elapsed today. *)
  let abs := uint64 (d * secondsPerDay) in
  let abs := uint64 (abs + uint64 (hour * 3600 + min * 60 + sec)) in
  int64 (abs - internalToAbsolute).

(** [t.AddDate(years, months, days)] *)
Definition AddDate (t years months days : Z) : Z :=
  let '(year, month, day) := absDate (abs t) in
  let sec := abs t mod secondsPerDay in
  let hour := sec / 3600 in
  let sec := sec - hour * 3600 in
  let min := sec / 60 in
  let sec := sec - min * 60 in
  Date (int64 (year + years)) (int64 (month + months)) (int64 (day + days))
       hour min sec.

(** [t.After(u)] for times with the same nanoseconds. *)
Definition After (t u : Z) : bool := u <? t.

(** What [asn1.Marshal] answers for a time: a GeneralizedTime has four
    digits for the year. *)
Definition marshalTime (t : Z) : option error :=
  if (Year t <? 0) || (9999 <? Year t)
  then Some (errorString "asn1: structure error: cannot represent time as GeneralizedTime")
  else None.

End GoTime.

(** * The stand-in library on the clock of package time

    [Stub.lib] with the time of [GoTime]: the clock is read in the UTC
    location, and the certificate is refused when its validity cannot be
    written, as [x509.CreateCertificate] refuses it when [asn1.Marshal] of
    the certificate body fails on notBefore or notAfter. *)
Module StubUTC.
#[local] Existing Instance Stub.types.

Definition createCertificate (r : Reader) (template parent : Certificate)
    (pub : option string) (priv : string) (w : Stub.world) : result bytes * Stub.world :=
  match GoTime.marshalTime (NotBefore template) with
  | Some e => (Err e, w)
  | None =>
      match GoTime.marshalTime (NotAfter template) with
      | Some e => (Err e, w)
      | None => Stub.createCertificate r template parent pub priv w
      end
  end.

Definition lib : GoLib :=
  {| ecdsa_GenerateKey := fun _ _ w => (Ok "alice"%string, Stub.stir w);
     PrivateKey_Public := Stub.public;
     rand_Int := Stub.randInt;
     x509_MarshalPKCS8PrivateKey := fun k => Ok (list_byte_of_string k);
     x509_CreateCertificateRequest := Stub.createCertificateRequest;
     x509_ParseCertificateRequest := Stub.parseCertificateRequest;
     CertificateRequest_CheckSignature := Stub.checkSignature;
     x509_CreateCertificate := createCertificate;
     x509_ParseCertificate := Stub.parseCertificate;
     pem_EncodeToMemory := Stub.encodeToMemory;
     pem_Decode := Stub.decode;
     url_Parse := Stub.parseURL;
     URL_Scheme := fst;
     time_Now := fun w =>
       (Stub.clock w + GoTime.unixToInternal,
        {| Stub.entropy := Stub.entropy w; Stub.clock := Stub.clock w + 1 |});
     Time_AddDate := GoTime.AddDate;
     Time_After := GoTime.After |}.

End StubUTC.

(** * Package files (src/internals/files/fileRename.go, lines 1-339) *)

(** ** cleanFileName

    The function works rune by rune: [for _, r := range name] reads runes and
    [strings.Builder.WriteRune] appends runes.  A Go string is held here as
    the sequence of its runes; '_', '.' and '/' are one-byte runes that occur
    in no longer UTF-8 sequence, so the byte-wise scans of the [strings] and
    [filepath] routines for them are scans of the runes.  The classification
    of package [unicode] is an interface. *)
Definition rune : Type := Z.

Class Unicode : Type := {
  unicode_IsLetter : rune -> bool;
  unicode_IsDigit : rune -> bool;
  unicode_IsSpace : rune -> bool;
  unicode_ToLower : rune -> rune;
  (* the text of a rune sequence, for [%s] *)
  string_of_runes : list rune -> string
}.

(** '_' *)
Definition underscore : rune := 95.

(** [strings.Trim(s, cutset)] for a cutset of one ASCII character:
    [trimLeftByte(trimRightByte(s, c), c)]. *)
Fixpoint trimLeftByte (s : list rune) (c : rune) : list rune :=
  match s with
  | [] => []
  | x :: s' => if x =? c then trimLeftByte s' c else s
  end.

Definition trimRightByte (s : list rune) (c : rune) : list rune :=
  reverse (trimLeftByte (reverse s) c).

Definition strings_Trim (s : list rune) (c : rune) : list rune :=
  trimLeftByte (trimRightByte s c) c.

(** The text has the character [c] twice in a row. *)
Definition doubled (c : rune) (s : list rune) : Prop :=
  ∃ l1 l2, s = l1 ++ c :: c :: l2.

(** The variables of the loop of [cleanFileName]: the builder [result] and
    the two flags. *)
Record cleanState : Type := mkCleanState {
  builder : list rune;
  lastWasSpace : bool;
  lastWasLetter : bool
}.

Section CleanFileName.
Context `{U : Unicode}.

(** One round of the loop of lines 104-125.  [result.Len() > 0] holds when
    a rune has been written. *)
Definition cleanStep (st : cleanState) (r : rune) : cleanState :=
  if unicode_IsLetter r then
    {| builder := builder st ++ [unicode_ToLower r];
       lastWasSpace := false;
       lastWasLetter := true |}
  else if unicode_IsDigit r then
    (* Only add digit if previous character was a letter *)
    if lastWasLetter st then
      {| builder := builder st ++ [r];
         lastWasSpace := false;
         lastWasLetter := false (* Number is not a letter *) |}
    else st
  else if unicode_IsSpace r then
    if negb (lastWasSpace st) && bool_decide (builder st ≠ []) then
      {| builder := builder st ++ [underscore];
         lastWasSpace := true;
         lastWasLetter := false |}
    else st
  else
    {| builder := builder st;
       lastWasSpace := lastWasSpace st;
       lastWasLetter := false |}.

Definition cleanInit : cleanState :=
  {| builder := []; lastWasSpace := false; lastWasLetter := false |}.

(** The loop of lines 104-125. *)
Definition cleanLoop (name : list rune) : cleanState :=
  fold_left cleanStep name cleanInit.

Definition cleanFileName (name : list rune) : result (list rune) :=
  let st := cleanLoop name in
  let cleanedName := builder st in
  let cleanedName := strings_Trim cleanedName underscore in
  (* Handle empty result *)
  if bool_decide (cleanedName = [])
  then Err (errorString ("cleaned filename is empty for input: "
                         +:+ string_of_runes name))
  else Ok cleanedName.

(** A rune of the builder comes from a letter, a digit or a white space of
    the name. *)
Definition writtenFrom (p : list rune) (x : rune) : Prop :=
  (∃ r, r ∈ p ∧ unicode_IsLetter r = true ∧ x = unicode_ToLower r)
  ∨ (x ∈ p ∧ unicode_IsLetter x = false ∧ unicode_IsDigit x = true)
  ∨ (x = underscore
     ∧ ∃ r, r ∈ p ∧ unicode_IsLetter r = false ∧ unicode_IsDigit r = false
            ∧ unicode_IsSpace r = true).

(** Facts of Unicode that the properties of [cleanFileName] rest on: the
    lower case of a letter is a letter and is its own lower case, and '_' is
    no letter, digit or white space. *)
Record UnicodeFacts : Prop := mkUnicodeFacts {
  ToLower_letter :
    ∀ r, unicode_IsLetter r = true → unicode_IsLetter (unicode_ToLower r) = true;
  ToLower_lower :
    ∀ r, unicode_IsLetter r = true →
         unicode_ToLower (unicode_ToLower r) = unicode_ToLower r;
  underscore_letter : unicode_IsLetter underscore = false;
  underscore_digit : unicode_IsDigit underscore = false;
  underscore_space : unicode_IsSpace underscore = false
}.

(** The shape of a cleaned name: lower-case letters, digits and
    underscores, every digit directly after a letter. *)
Inductive cleanShaped : list rune → Prop :=
| shaped_nil : cleanShaped []
| shaped_letter x l :
    unicode_IsLetter x = true → unicode_ToLower x = x →
    cleanShaped l → cleanShaped (x :: l)
| shaped_letter_digit x d l :
    unicode_IsLetter x = true → unicode_ToLower x = x →
    unicode_IsLetter d = false → unicode_IsDigit d = true →
    cleanShaped l → cleanShaped (x :: d :: l)
| shaped_underscore l :
    cleanShaped l → cleanShaped (underscore :: l).

End CleanFileName.

(** The classification of [unicode] on ASCII: letters A-Z and a-z, digits
    0-9, white space tab, line feed, vertical tab, form feed, carriage return
    and space. *)
Module Ascii7.

Definition isUpper (r : rune) : bool := (65 <=? r) && (r <=? 90).
Definition isLower (r : rune) : bool := (97 <=? r) && (r <=? 122).

Definition unicode : Unicode :=
  {| unicode_IsLetter := fun r => isUpper r || isLower r;
     unicode_IsDigit := fun r => (48 <=? r) && (r <=? 57);
     unicode_IsSpace := fun r => ((9 <=? r) && (r <=? 13)) || (r =? 32);
     unicode_ToLower := fun r => if isUpper r then r + 32 else r;
     string_of_runes := fun l =>
       string_of_list_ascii (map (fun r => ascii_of_nat (Z.to_nat r)) l) |}.

(** The runes of an ASCII text. *)
Definition runes (s : string) : list rune :=
  map (fun c => Z.of_nat (nat_of_ascii c)) (list_ascii_of_string s).

End Ascii7.

(** ** The routines of [strings] and [path/filepath] on texts *)
Section Strings.
Context {A : Type} `{EqDecision A}.

(** [len(s) >= len(prefix) && s[:len(prefix)] == prefix] *)
Definition strings_HasPrefix (s prefix : list A) : bool :=
  (length prefix <=? length s)%nat && bool_decide (take (length prefix) s = prefix).

(** [if HasPrefix(s, prefix) { return s[len(prefix):] }; return s] *)
Definition strings_TrimPrefix (s prefix : list A) : list A :=
  if strings_HasPrefix s prefix then drop (length prefix) s else s.

(** [len(s) >= len(suffix) && s[len(s)-len(suffix):] == suffix] *)
Definition strings_HasSuffix (s suffix : list A) : bool :=
  (length suffix <=? length s)%nat
  && bool_decide (drop (length s - length suffix) s = suffix).

(** [if HasSuffix(s, suffix) { return s[:len(s)-len(suffix)] }; return s] *)
Definition strings_TrimSuffix (s suffix : list A) : list A :=
  if strings_HasSuffix s suffix then take (length s - length suffix) s else s.

(** Lines 261-274 and 281 of the walk function of [compressDirectory]: the
    name an entry gets in the archive, or nothing when the entry is skipped.
    [Base] is [filepath.Base], [sep] is [filepath.Separator] and [slash] the
    character of the literal "/". *)
Definition headerName (Base : list A → list A) (sep slash : A)
    (srcPath rootPath filePath : list A) (isDir : bool) : option (list A) :=
  (* Calculate the relative path within the archive. *)
  let relativePath := strings_TrimPrefix filePath (rootPath ++ [sep]) in
  (* Skip the root directory itself, or the root path of a single file *)
  if bool_decide (relativePath = []) && isDir then None
  else
    (* Set a cleaner relative path for the root item *)
    if bool_decide (srcPath = filePath)
    then Some (Base srcPath)
    else Some (Base srcPath ++ [slash] ++ relativePath).

End Strings.

(** '.' and '/' *)
Definition dot : rune := 46.
Definition slash : rune := 47.

(** [filepath.Ext]:
    [for i := len(path) - 1; i >= 0 && !os.IsPathSeparator(path[i]); i--
       { if path[i] == '.' { return path[i:] } }; return ""],
    read from the end of the path; [seen] is [path[i+1:]]. *)
Fixpoint Ext_loop (reversed seen : list rune) : list rune :=
  match reversed with
  | [] => []
  | c :: reversed' =>
      if c =? slash then []
      else if c =? dot then c :: seen
      else Ext_loop reversed' (c :: seen)
  end.

Definition filepath_Ext (path : list rune) : list rune :=
  Ext_loop (reverse path) [].

Section NewFileName.
Context `{U : Unicode}.

(** Lines 60-73: the new name of the entry [oldName], or the error of
    [cleanFileName], on which the entry is left as it is. *)
Definition newFileName (extension oldName : list rune) : result (list rune) :=
  let baseName := strings_TrimSuffix oldName (filepath_Ext oldName) in
  (* Clean the filename *)
  match cleanFileName baseName with
  | Err err => Err err
  | Ok cleanedName =>
      (* Create new filename with extension *)
      Ok (cleanedName ++ [dot] ++ extension)
  end.

End NewFileName.

(** * Package certificates: what the library is asked to keep *)
Section LibraryLaws.
Context `{L : GoLib}.



End LibraryLaws.

(** ** Runs on the stand-in library and on ASCII *)




(** A file name and what cleaning makes of it. *)
Definition messyName : list rune := Ascii7.runes "  My File 2024 (copy)__v2 ".
Definition tidyName : list rune := Ascii7.runes "my_file_copyv2".

(** * Properties *)

(** ** The DNS-name list of [createCSR] *)

Lemma filter_dedupFirst (P : string → Prop) `{!∀ x, Decision (P x)} (l : list string) :
  filter P (dedupFirst l) = dedupFirst (filter P l).
Proof.
  induction l as [|x l IH]; [done|].
  cbn [dedupFirst]. rewrite !filter_cons.
  destruct (decide (P x)) as [HP|HP].
  - cbn [dedupFirst]. f_equal. rewrite <- IH, !list_filter_filter.
    apply list_filter_iff. tauto.
  - rewrite <- IH, list_filter_filter.
    apply list_filter_iff. intros y. split; [tauto|].
    intros Hy. split; [done|]. by intros ->.
Qed.

Lemma filter_all (P : string → Prop) `{!∀ x, Decision (P x)} (l : list string) :
  (∀ x, P x) → filter P l = l.
Proof.
  intros HP. induction l as [|x l IH]; [done|].
  rewrite filter_cons_True by done. by f_equal.
Qed.

Lemma dedupFirst_elem_of (l : list string) (x : string) : x ∈ dedupFirst l ↔ x ∈ l.
Proof.
  induction l as [|y l IH]; [done|].
  cbn [dedupFirst]. rewrite !elem_of_cons, list_elem_of_filter, IH.
  destruct (decide (x = y)); tauto.
Qed.

Lemma dedupFirst_NoDup (l : list string) : NoDup (dedupFirst l).
Proof.
  induction l as [|y l IH]; [constructor|].
  cbn [dedupFirst]. constructor.
  - rewrite list_elem_of_filter. tauto.
  - by apply NoDup_filter.
Qed.

Lemma dedupStep_loop (dnsNames : list string) :
  ∀ uniqueDNS finalDNS,
    seen uniqueDNS finalDNS →
    snd (fold_left dedupStep dnsNames (uniqueDNS, finalDNS))
    = finalDNS ++ dedupFirst (filter (λ y, y ∉ finalDNS) dnsNames).
Proof.
  induction dnsNames as [|name dnsNames IH]; intros m acc Hseen.
  - cbn. by rewrite app_nil_r.
  - cbn [fold_left]. unfold dedupStep at 2. rewrite filter_cons.
    destruct (default false (m !! name)) eqn:Hm; cbn [negb].
    + apply Hseen in Hm. rewrite decide_False by tauto. by apply IH.
    + assert (name ∉ acc) as Hnotin.
      { intros Hin. apply Hseen in Hin. congruence. }
      rewrite decide_True by done.
      rewrite IH.
      * cbn [dedupFirst]. rewrite <- app_assoc. cbn [app]. do 2 f_equal.
        rewrite filter_dedupFirst, list_filter_filter. f_equal.
        apply list_filter_iff. intros y.
        rewrite elem_of_app, list_elem_of_singleton. tauto.
      * intros x. rewrite elem_of_app, list_elem_of_singleton.
        destruct (decide (name = x)) as [->|Hne].
        -- rewrite lookup_insert_eq. cbn. tauto.
        -- rewrite lookup_insert_ne by done. rewrite (Hseen x).
           split; [tauto|]. intros [?|?]; [done|congruence].
Qed.

Lemma csrDNSNames_dedupFirst (commonName : string) (altNames : list string) :
  csrDNSNames commonName altNames = dedupFirst (commonName :: altNames).
Proof.
  unfold csrDNSNames. rewrite dedupStep_loop.
  - cbn [app]. f_equal. apply filter_all. intros x. apply not_elem_of_nil.
  - intros x. rewrite lookup_empty. cbn. split; [done|]. by intros ?%elem_of_nil.
Qed.

(** The end-to-end scenario of the specification. *)
Example csrDNSNames_example :
  csrDNSNames "example.com" ["example.com"; "www.example.com"]%string
  = ["example.com"; "www.example.com"]%string.
Proof. vm_compute. reflexivity. Qed.

Section DNSNames.
Context `{L : GoLib}.


End DNSNames.

(** ** The encoders on small inputs *)

Example Marshal_empty_slice : asn1.Marshal (asn1.VSlice []) = Ok [x30; x00].
Proof. reflexivity. Qed.

Example Marshal_version : asn1.Marshal (asn1.VInt 1) = Ok [x02; x01; x01].
Proof. reflexivity. Qed.

Example Marshal_int_two_octets : asn1.Marshal (asn1.VInt 256) = Ok [x02; x02; x01; x00].
Proof. reflexivity. Qed.

Example Marshal_oidSignedData :
  asn1.Marshal (asn1.VObjectIdentifier [1; 2; 840; 113549; 1; 7; 2])
  = Ok [x06; x09; x2a; x86; x48; x86; xf7; x0d; x01; x07; x02].
Proof. reflexivity. Qed.

(** With [Bytes] the class and tag of a [RawValue] are written, with
    [FullBytes] they are not. *)
Example Marshal_RawValue_Bytes :
  asn1.Marshal
    (asn1.VRawValue {| asn1.Class := 2; asn1.Tag := 0; asn1.IsCompound := true;
                       asn1.Bytes := [x05; x00]; asn1.FullBytes := [] |})
  = Ok [xa0; x02; x05; x00].
Proof. reflexivity. Qed.

Example Marshal_RawValue_FullBytes :
  asn1.Marshal
    (asn1.VRawValue {| asn1.Class := 2; asn1.Tag := 0; asn1.IsCompound := true;
                       asn1.Bytes := []; asn1.FullBytes := [x05; x00] |})
  = Ok [x05; x00].
Proof. reflexivity. Qed.

Example Marshal_long_length :
  asn1.Marshal
    (asn1.VRawValue {| asn1.Class := 0; asn1.Tag := 16; asn1.IsCompound := true;
                       asn1.Bytes := repeat x00 300; asn1.FullBytes := [] |})
  = Ok ([x30; x82; x01; x2c] ++ repeat x00 300).
Proof. vm_compute. reflexivity. Qed.

Example EncodeToString_Man : base64.EncodeToString [x4d; x61; x6e] = "TWFu"%string.
Proof. reflexivity. Qed.

Example EncodeToString_Ma : base64.EncodeToString [x4d; x61] = "TWE="%string.
Proof. reflexivity. Qed.

Example EncodeToString_M : base64.EncodeToString [x4d] = "TQ=="%string.
Proof. reflexivity. Qed.

(** ** The marshalled envelope *)

Lemma taggedEncoder_sequence (body : bytes) :
  asn1.taggedEncoder asn1.ClassUniversal asn1.TagSequence true body = der x30 body.
Proof.
  unfold asn1.taggedEncoder, asn1.appendTagAndLength, der, derLength, asn1.appendLength.
  cbn. by destruct (128 <=? _).
Qed.

Lemma taggedEncoder_context0 (body : bytes) :
  asn1.taggedEncoder 2 0 true body = der xa0 body.
Proof.
  unfold asn1.taggedEncoder, asn1.appendTagAndLength, der, derLength, asn1.appendLength.
  cbn. by destruct (128 <=? _).
Qed.

Lemma makeField_VStruct (fields : list (asn1.fieldParameters * asn1.value)) :
  asn1.makeField (asn1.VStruct fields) asn1.noParams
  = match asn1.makeFields fields with
    | Err e => Err e
    | Ok body => Ok (asn1.taggedEncoder asn1.ClassUniversal asn1.TagSequence true body)
    end.
Proof. reflexivity. Qed.

Lemma makeField_VSlice (elems : list asn1.value) :
  asn1.makeField (asn1.VSlice elems) asn1.noParams
  = match asn1.makeElements elems with
    | Err e => Err e
    | Ok body => Ok (asn1.taggedEncoder asn1.ClassUniversal asn1.TagSequence true body)
    end.
Proof. reflexivity. Qed.

(** A [RawValue] with [FullBytes] set is written as those bytes: class, tag
    and struct-tag options play no part. *)
Lemma makeField_FullBytes (class tag : Z) (isCompound : bool) (b fullBytes : bytes)
    (params : asn1.fieldParameters) :
  fullBytes ≠ [] →
  asn1.makeField
    (asn1.VRawValue {| asn1.Class := class; asn1.Tag := tag;
                       asn1.IsCompound := isCompound; asn1.Bytes := b;
                       asn1.FullBytes := fullBytes |}) params
  = Ok fullBytes.
Proof.
  intros Hne. destruct fullBytes as [|x l]; [done|].
  cbn. rewrite !andb_false_r. reflexivity.
Qed.

Section Envelope.
Context `{L : GoLib}.

Lemma emptySet_bytes : emptySet = der x30 [].
Proof. reflexivity. Qed.

Lemma Marshal_certSet (certBytes : bytes) :
  certBytes ≠ [] →
  asn1.Marshal
    (asn1.VSlice
       [asn1.VRawValue
          {| asn1.Class := 0; asn1.Tag := 0; asn1.IsCompound := false;
             asn1.Bytes := []; asn1.FullBytes := certBytes |}])
  = Ok (der x30 certBytes).
Proof.
  intros Hne. unfold asn1.Marshal. rewrite makeField_VSlice.
  cbn [asn1.makeElements]. rewrite makeField_FullBytes by done.
  by rewrite app_nil_r, taggedEncoder_sequence.
Qed.

Lemma Marshal_signedData (certSet : bytes) :
  certSet ≠ [] →
  asn1.Marshal
    (signedData 1
      {| asn1.Class := 0; asn1.Tag := 0; asn1.IsCompound := false;
         asn1.Bytes := []; asn1.FullBytes := emptySet |}
      (contentInfo oidData asn1.zeroRawValue)
      {| asn1.Class := 2; asn1.Tag := 0; asn1.IsCompound := true;
         asn1.Bytes := []; asn1.FullBytes := certSet |}
      asn1.zeroRawValue
      {| asn1.Class := 0; asn1.Tag := 0; asn1.IsCompound := false;
         asn1.Bytes := []; asn1.FullBytes := emptySet |})
  = Ok (der x30 (versionDER ++ der x30 [] ++ der x30 oidDataDER
                 ++ certSet ++ der x30 [])).
Proof.
  intros Hne. unfold asn1.Marshal, signedData.
  rewrite makeField_VStruct. cbn [asn1.makeFields].
  rewrite (makeField_FullBytes 2 0 true [] certSet) by done.
  replace (asn1.makeField (asn1.VInt 1) asn1.noParams) with (Ok versionDER)
    by reflexivity.
  replace (asn1.makeField
             (asn1.VRawValue
                {| asn1.Class := 0; asn1.Tag := 0; asn1.IsCompound := false;
                   asn1.Bytes := []; asn1.FullBytes := emptySet |}) asn1.noParams)
    with (Ok (der x30 [])) by reflexivity.
  replace (asn1.makeField (contentInfo oidData asn1.zeroRawValue) asn1.noParams)
    with (Ok (der x30 oidDataDER)) by reflexivity.
  replace (asn1.makeField (asn1.VRawValue asn1.zeroRawValue)
             {| asn1.optional := true; asn1.explicit := false; asn1.tag := Some 1 |})
    with (Ok (@nil byte)) by reflexivity.
  rewrite taggedEncoder_sequence. cbn [app]. by rewrite app_nil_r.
Qed.

Lemma Marshal_outer (signedDataBytes : bytes) :
  asn1.Marshal
    (contentInfo oidSignedData
       {| asn1.Class := 2; asn1.Tag := 0; asn1.IsCompound := true;
          asn1.Bytes := signedDataBytes; asn1.FullBytes := [] |})
  = Ok (der x30 (oidSignedDataDER ++ der xa0 signedDataBytes)).
Proof.
  unfold asn1.Marshal, contentInfo.
  rewrite makeField_VStruct. cbn [asn1.makeFields].
  replace (asn1.makeField (asn1.VObjectIdentifier oidSignedData) asn1.noParams)
    with (Ok oidSignedDataDER) by reflexivity.
  replace (asn1.makeField
             (asn1.VRawValue
                {| asn1.Class := 2; asn1.Tag := 0; asn1.IsCompound := true;
                   asn1.Bytes := signedDataBytes; asn1.FullBytes := [] |})
             {| asn1.optional := true; asn1.explicit := true; asn1.tag := Some 0 |})
    with (Ok (asn1.taggedEncoder 2 0 true signedDataBytes)) by reflexivity.
  by rewrite taggedEncoder_sequence, taggedEncoder_context0, app_nil_r.
Qed.

Lemma der_nonempty (identifier : byte) (contents : bytes) : der identifier contents ≠ [].
Proof. done. Qed.

(** Lines 556-623 never take an error return: for every certificate the
    three marshalling steps succeed with [envelopeLayout]. *)
Lemma marshalPKCS7_layout (certBytes : bytes) (w : World) :
  certBytes ≠ [] →
  marshalPKCS7 certBytes w = (inl (envelopeLayout certBytes), w).
Proof.
  intros Hne. unfold marshalPKCS7, bindB, try.
  rewrite Marshal_certSet by done.
  rewrite Marshal_signedData by apply der_nonempty.
  by rewrite Marshal_outer.
Qed.

Lemma marshalPKCS7_total (certBytes : bytes) (w : World) :
  ∃ pkcs7DER, marshalPKCS7 certBytes w = (inl pkcs7DER, w).
Proof.
  destruct certBytes as [|b l].
  - eexists. reflexivity.
  - eexists. by apply marshalPKCS7_layout.
Qed.

End Envelope.

Lemma length_der (id1 id2 : byte) (c1 c2 : bytes) :
  length c1 = length c2 → length (der id1 c1) = length (der id2 c2).
Proof. intros Hlen. unfold der. cbn. rewrite !length_app. by rewrite Hlen. Qed.

Lemma der_inj (identifier : byte) (c1 c2 : bytes) :
  length c1 = length c2 → der identifier c1 = der identifier c2 → c1 = c2.
Proof.
  intros Hlen. unfold der. rewrite Hlen. intros [= Heq]. by apply app_inv_head in Heq.
Qed.

Lemma length_signedData (certBytes : bytes) :
  length (signedDataLayout certBytes) = length (specSignedData certBytes).
Proof.
  apply length_der. rewrite !length_app.
  by rewrite (length_der x30 x31 [] []), (length_der x30 xa0 certBytes certBytes).
Qed.

Lemma envelopeLayout_not_spec (certBytes : bytes) :
  envelopeLayout certBytes ≠ specEnvelope certBytes.
Proof.
  pose proof (length_signedData certBytes) as Hlen.
  unfold envelopeLayout, specEnvelope. intros Heq.
  apply der_inj in Heq.
  2:{ rewrite !length_app. f_equal. by apply length_der. }
  apply app_inv_head, der_inj in Heq; [|done].
  unfold signedDataLayout, specSignedData in Heq.
  apply der_inj in Heq.
  - apply app_inv_head in Heq. discriminate Heq.
  - rewrite !length_app.
    by rewrite (length_der x30 x31 [] []), (length_der x30 xa0 certBytes certBytes).
Qed.

Section EnvelopeClaim.
Context `{L : GoLib}.

(** C1: for every certificate, the envelope builder writes version 1, the
    data OID as inner content type and an outer content-info with the
    signed-data OID and a context-specific constructed tag 0 around the
    signed data, as the specification says; but the digest-algorithm and
    signer-info elements are empty SEQUENCEs (0x30 0x00), not SETs, and the
    certificates field is the certificate inside a universal SEQUENCE (0x30),
    not under the context-specific tag 0 (0xa0): [FullBytes] makes
    [asn1.Marshal] ignore the class, tag and compound bit the code sets.  So
    the bytes written differ from the envelope of the specification. *)
Theorem marshalPKCS7_not_spec_envelope (certBytes : bytes) (w : World) :
  certBytes ≠ [] →
  marshalPKCS7 certBytes w
  = (inl (der x30 (oidSignedDataDER
                   ++ der xa0 (der x30 (versionDER ++ der x30 [] ++ der x30 oidDataDER
                                        ++ der x30 certBytes ++ der x30 [])))), w)
  ∧ marshalPKCS7 certBytes w ≠ (inl (specEnvelope certBytes), w).
Proof.
  intros Hne. rewrite marshalPKCS7_layout by done. split; [reflexivity|].
  intros Heq. apply (f_equal fst) in Heq. cbn [fst] in Heq.
  apply (inj inl) in Heq. exact (envelopeLayout_not_spec certBytes Heq).
Qed.

End EnvelopeClaim.

(** ** Runs of [signCSRToPKCS7] *)
Section Signing.
Context `{L : GoLib}.

Ltac unfold_sign :=
  unfold signCSRToPKCS7, run, bindB, call, try, Return.

(** The URI loop changes the URI list only. *)
Lemma addURI_fields (template : Certificate) (name : string) :
  SerialNumber (addURI template name) = SerialNumber template
  ∧ Subject (addURI template name) = Subject template
  ∧ NotBefore (addURI template name) = NotBefore template
  ∧ NotAfter (addURI template name) = NotAfter template
  ∧ KeyUsage (addURI template name) = KeyUsage template
  ∧ BasicConstraintsValid (addURI template name) = BasicConstraintsValid template
  ∧ DNSNames (addURI template name) = DNSNames template.
Proof.
  unfold addURI. destruct (url_Parse name) as [u|e]; [|done].
  by destruct (bool_decide _).
Qed.

Lemma addURI_URIs (template : Certificate) (name : string) :
  URIs (addURI template name) = URIs template ++ option_list (absoluteURI name).
Proof.
  unfold addURI, absoluteURI. destruct (url_Parse name) as [u|e].
  - destruct (bool_decide _); cbn; [done|by rewrite app_nil_r].
  - cbn. by rewrite app_nil_r.
Qed.

Lemma fold_addURI_fields (names : list string) :
  ∀ template : Certificate,
    let template' := fold_left addURI names template in
    SerialNumber template' = SerialNumber template
    ∧ Subject template' = Subject template
    ∧ NotBefore template' = NotBefore template
    ∧ NotAfter template' = NotAfter template
    ∧ KeyUsage template' = KeyUsage template
    ∧ BasicConstraintsValid template' = BasicConstraintsValid template
    ∧ DNSNames template' = DNSNames template.
Proof.
  induction names as [|name names IH]; intros template; cbn [fold_left]; [done|].
  specialize (IH (addURI template name)). cbv zeta in IH.
  destruct (addURI_fields template name) as (-> & -> & -> & -> & -> & -> & ->) in IH.
  exact IH.
Qed.

Lemma fold_addURI_URIs (names : list string) :
  ∀ template : Certificate,
    URIs (fold_left addURI names template) = URIs template ++ omap absoluteURI names.
Proof.
  induction names as [|name names IH]; intros template; cbn [fold_left omap list_omap].
  - by rewrite app_nil_r.
  - rewrite IH, addURI_URIs, <- app_assoc. f_equal.
    unfold omap. by destruct (absoluteURI name).
Qed.

Lemma signingTemplate_fields (csr : CertificateRequest) (serialNumber : Z)
    (notBefore : Time) (validityDays : Z) :
  let template := signingTemplate csr serialNumber notBefore validityDays in
  SerialNumber template = serialNumber
  ∧ Subject template = CR_Subject csr
  ∧ NotBefore template = notBefore
  ∧ NotAfter template = Time_AddDate notBefore 0 0 validityDays
  ∧ KeyUsage template = 3
  ∧ BasicConstraintsValid template = true
  ∧ DNSNames template = CR_DNSNames csr.
Proof.
  unfold signingTemplate.
  exact (fold_addURI_fields (CR_DNSNames csr)
           (certTemplate csr serialNumber notBefore
              (Time_AddDate notBefore 0 0 validityDays))).
Qed.

Lemma signingTemplate_URIs (csr : CertificateRequest) (serialNumber : Z)
    (notBefore : Time) (validityDays : Z) :
  URIs (signingTemplate csr serialNumber notBefore validityDays)
  = omap absoluteURI (CR_DNSNames csr).
Proof. unfold signingTemplate. by rewrite fold_addURI_URIs. Qed.

(** [new(big.Int).Lsh(big.NewInt(1), 128)] *)
Lemma serial_bound : Z.shiftl 1 128 = 2 ^ 128.
Proof. reflexivity. Qed.

(** Every successful run went through all the steps. *)
Lemma signCSRToPKCS7_Ok_inv (csrPEM : string) (key : PrivateKey) (validityDays : Z)
    (w w' : World) (out : string) :
  signCSRToPKCS7 csrPEM key validityDays w = ((out, None), w') →
  ∃ csr serialNumber w1 notBefore w2 certBytes cert pkcs7DER,
    reachesSerial csrPEM w csr serialNumber w1
    ∧ time_Now w1 = (notBefore, w2)
    ∧ (let template := signingTemplate csr serialNumber notBefore validityDays in
       x509_CreateCertificate rand_Reader template template (CR_PublicKey csr) key w2
       = (Ok certBytes, w'))
    ∧ x509_ParseCertificate certBytes = Ok cert
    ∧ marshalPKCS7 certBytes w' = (inl pkcs7DER, w')
    ∧ out = base64.EncodeToString pkcs7DER.
Proof.
  unfold_sign. intros Hrun.
  destruct (pem_Decode csrPEM) as [block|] eqn:Hdecode; [|done].
  destruct (x509_ParseCertificateRequest (Block_Bytes block)) as [csr|e] eqn:Hparse; [|done].
  destruct (rand_Int rand_Reader (Z.shiftl 1 128) w) as [[serialNumber|e] w1] eqn:Hserial;
    [|done].
  destruct (time_Now w1) as [notBefore w2] eqn:Hnow.
  fold (signingTemplate csr serialNumber notBefore validityDays) in Hrun.
  destruct (x509_CreateCertificate _ _ _ _ _ w2) as [[certBytes|e] w3] eqn:Hcreate; [|done].
  destruct (x509_ParseCertificate certBytes) as [cert|e] eqn:Hcert; [|done].
  destruct (marshalPKCS7_total certBytes w3) as [pkcs7DER Hder].
  rewrite Hder in Hrun. simplify_eq.
  exists csr, serialNumber, w1, notBefore, w2, certBytes, cert, pkcs7DER.
  split; [by econstructor|]. done.
Qed.

(** The string a successful run returns is the base64 text of
    [envelopeLayout] around the certificate the library created. *)
Lemma signCSRToPKCS7_output_layout (csrPEM : string) (key : PrivateKey)
    (validityDays : Z) (w w' : World) (out : string) :
  signCSRToPKCS7 csrPEM key validityDays w = ((out, None), w') →
  ∃ csr serialNumber now w2 certBytes,
    (let template := signingTemplate csr serialNumber now validityDays in
     x509_CreateCertificate rand_Reader template template (CR_PublicKey csr) key w2
     = (Ok certBytes, w'))
    ∧ (certBytes ≠ [] → out = base64.EncodeToString (envelopeLayout certBytes)).
Proof.
  intros Hrun.
  destruct (signCSRToPKCS7_Ok_inv _ _ _ _ _ _ Hrun)
    as (csr & serialNumber & w1 & now & w2 & certBytes & cert & pkcs7DER
        & _ & _ & Hcreate & _ & Hder & Hout).
  exists csr, serialNumber, now, w2, certBytes. split; [done|].
  intros Hne. rewrite marshalPKCS7_layout in Hder by done. by simplify_eq.
Qed.

(** And a run whose steps all succeed is successful. *)
Lemma signCSRToPKCS7_Ok_intro (csrPEM : string) (key : PrivateKey) (validityDays : Z)
    (w w1 w2 w3 : World) (csr : CertificateRequest) (serialNumber : Z)
    (notBefore : Time) (certBytes : bytes) (cert : Certificate) :
  reachesSerial csrPEM w csr serialNumber w1 →
  time_Now w1 = (notBefore, w2) →
  (let template := signingTemplate csr serialNumber notBefore validityDays in
   x509_CreateCertificate rand_Reader template template (CR_PublicKey csr) key w2
   = (Ok certBytes, w3)) →
  x509_ParseCertificate certBytes = Ok cert →
  ∃ pkcs7DER,
    marshalPKCS7 certBytes w3 = (inl pkcs7DER, w3)
    ∧ signCSRToPKCS7 csrPEM key validityDays w
      = ((base64.EncodeToString pkcs7DER, None), w3).
Proof.
  intros [block Hdecode Hparse Hserial] Hnow Hcreate Hcert.
  destruct (marshalPKCS7_total certBytes w3) as [pkcs7DER Hder].
  exists pkcs7DER. split; [done|].
  unfold_sign. rewrite Hdecode, Hparse, Hserial, Hnow.
  fold (signingTemplate csr serialNumber notBefore validityDays).
  cbv zeta in Hcreate. rewrite Hcreate, Hcert, Hder. done.
Qed.

(** Every error return hands back the empty string and the error of the
    first step that failed. *)
Lemma signCSRToPKCS7_Err_inv (csrPEM : string) (key : PrivateKey) (validityDays : Z)
    (w w' : World) (out : string) (err : error) :
  signCSRToPKCS7 csrPEM key validityDays w = ((out, Some err), w') →
  out = EmptyString ∧ signFailure csrPEM key validityDays w err w'.
Proof.
  unfold_sign. intros Hrun.
  destruct (pem_Decode csrPEM) as [block|] eqn:Hdecode.
  2:{ simplify_eq. split; [done|]. by apply fail_decode. }
  destruct (x509_ParseCertificateRequest (Block_Bytes block)) as [csr|e] eqn:Hparse.
  2:{ simplify_eq. split; [done|]. by eapply fail_parseCSR. }
  destruct (rand_Int rand_Reader (Z.shiftl 1 128) w) as [[serialNumber|e] w1] eqn:Hserial.
  2:{ simplify_eq. split; [done|]. by eapply fail_serial. }
  assert (reachesSerial csrPEM w csr serialNumber w1) as Hreach by by econstructor.
  destruct (time_Now w1) as [notBefore w2] eqn:Hnow.
  fold (signingTemplate csr serialNumber notBefore validityDays) in Hrun.
  destruct (x509_CreateCertificate _ _ _ _ _ w2) as [[certBytes|e] w3] eqn:Hcreate.
  2:{ simplify_eq. split; [done|]. by eapply fail_create. }
  destruct (x509_ParseCertificate certBytes) as [cert|e] eqn:Hcert.
  2:{ simplify_eq. split; [done|]. by eapply fail_parseCert. }
  destruct (marshalPKCS7_total certBytes w3) as [pkcs7DER Hder].
  rewrite Hder in Hrun. simplify_eq.
Qed.


(** C4: when the PEM text does not decode, the function returns the empty
    string with the error "failed to decode CSR PEM" and leaves the world as
    it was; and whenever it returns an error, the string returned is empty
    and the error is that of the first step that failed, the steps before it
    having succeeded. *)
Theorem signCSRToPKCS7_errors (csrPEM : string) (key : PrivateKey)
    (validityDays : Z) (w : World) :
  (pem_Decode csrPEM = None →
   signCSRToPKCS7 csrPEM key validityDays w
   = ((EmptyString, Some (errorString "failed to decode CSR PEM")), w))
  ∧ (∀ out err w',
       signCSRToPKCS7 csrPEM key validityDays w = ((out, Some err), w') →
       out = EmptyString ∧ signFailure csrPEM key validityDays w err w').
Proof.
  split.
  - intros Hdecode. unfold_sign. by rewrite Hdecode.
  - intros out err w'. apply signCSRToPKCS7_Err_inv.
Qed.

(** C5: in every successful run the serial number of the template is the
    value that [rand.Int] returned for the reader [rand.Reader] and the bound
    2^128, unchanged; with [rand.Int] keeping its contract (a value in
    [0, max)), the serial number satisfies 0 <= serialNumber < 2^128. *)
Theorem signCSRToPKCS7_serialNumber (csrPEM : string) (key : PrivateKey)
    (validityDays : Z) (w w' : World) (out : string) :
  (∀ max w0 n w1, 0 < max → rand_Int rand_Reader max w0 = (Ok n, w1) → 0 ≤ n < max) →
  signCSRToPKCS7 csrPEM key validityDays w = ((out, None), w') →
  ∃ csr serialNumber w1 now w2 certBytes,
    rand_Int rand_Reader (2 ^ 128) w = (Ok serialNumber, w1)
    ∧ time_Now w1 = (now, w2)
    ∧ (let template := signingTemplate csr serialNumber now validityDays in
       x509_CreateCertificate rand_Reader template template (CR_PublicKey csr) key w2
       = (Ok certBytes, w')
       ∧ SerialNumber template = serialNumber)
    ∧ 0 ≤ serialNumber < 2 ^ 128.
Proof.
  intros Hcontract Hrun.
  destruct (signCSRToPKCS7_Ok_inv _ _ _ _ _ _ Hrun)
    as (csr & serialNumber & w1 & now & w2 & certBytes & cert & pkcs7DER
        & [block _ _ Hserial] & Hnow & Hcreate & _).
  rewrite serial_bound in Hserial.
  exists csr, serialNumber, w1, now, w2, certBytes.
  destruct (signingTemplate_fields csr serialNumber now validityDays) as (Hsn & _).
  cbv zeta in *. rewrite Hsn. repeat split; try done.
  all: by apply (Hcontract (2 ^ 128) w serialNumber w1).
Qed.

(** C6: in every successful run the URI list of the template is the list of
    the parsed URLs of those DNS names of the CSR, in their order, for which
    [url.Parse] returns no error and a URL with a non-empty scheme; so a URL
    is in the list exactly when it is the parse of such a name. *)
Theorem signCSRToPKCS7_URIs (csrPEM : string) (key : PrivateKey)
    (validityDays : Z) (w w' : World) (out : string) :
  signCSRToPKCS7 csrPEM key validityDays w = ((out, None), w') →
  ∃ csr serialNumber w1 now w2 certBytes,
    reachesSerial csrPEM w csr serialNumber w1
    ∧ time_Now w1 = (now, w2)
    ∧ (let template := signingTemplate csr serialNumber now validityDays in
       x509_CreateCertificate rand_Reader template template (CR_PublicKey csr) key w2
       = (Ok certBytes, w')
       ∧ DNSNames template = CR_DNSNames csr
       ∧ URIs template = omap absoluteURI (CR_DNSNames csr)
       ∧ (∀ u, u ∈ URIs template ↔
               ∃ name, name ∈ CR_DNSNames csr
                       ∧ url_Parse name = Ok u ∧ URL_Scheme u ≠ EmptyString)).
Proof.
  intros Hrun.
  destruct (signCSRToPKCS7_Ok_inv _ _ _ _ _ _ Hrun)
    as (csr & serialNumber & w1 & now & w2 & certBytes & cert & pkcs7DER
        & Hreach & Hnow & Hcreate & _).
  exists csr, serialNumber, w1, now, w2, certBytes.
  destruct (signingTemplate_fields csr serialNumber now validityDays)
    as (_ & _ & _ & _ & _ & _ & Hdns).
  cbv zeta in *. rewrite Hdns, signingTemplate_URIs.
  repeat split; try done.
  - intros (name & Hin & Huri)%list_elem_of_omap. exists name. split; [done|].
    unfold absoluteURI in Huri. destruct (url_Parse name) as [u'|e]; [|done].
    destruct (bool_decide (URL_Scheme u' ≠ EmptyString)) eqn:Hscheme; [|done].
    apply bool_decide_eq_true in Hscheme. by simplify_eq.
  - intros (name & Hin & Hparse & Hscheme). apply list_elem_of_omap.
    exists name. split; [done|]. unfold absoluteURI. rewrite Hparse.
    by rewrite bool_decide_eq_true_2.
Qed.

(** C7: in every successful run [x509.CreateCertificate] is called with one
    and the same template as certificate and as signing parent, so the name
    of the parent (the issuer) is the name of the template (the subject),
    which is the subject of the CSR; the key it signs with is the private key
    handed to signCSRToPKCS7. *)
Theorem signCSRToPKCS7_self_signed (csrPEM : string) (signingPrivateKey : PrivateKey)
    (validityDays : Z) (w w' : World) (out : string) :
  signCSRToPKCS7 csrPEM signingPrivateKey validityDays w = ((out, None), w') →
  ∃ csr w2 certBytes (template parent : Certificate),
    x509_CreateCertificate rand_Reader template parent (CR_PublicKey csr)
      signingPrivateKey w2 = (Ok certBytes, w')
    ∧ parent = template
    ∧ Subject parent = Subject template
    ∧ Subject template = CR_Subject csr
    ∧ ∃ pkcs7DER,
        marshalPKCS7 certBytes w' = (inl pkcs7DER, w')
        ∧ out = base64.EncodeToString pkcs7DER.
Proof.
  intros Hrun.
  destruct (signCSRToPKCS7_Ok_inv _ _ _ _ _ _ Hrun)
    as (csr & serialNumber & w1 & now & w2 & certBytes & cert & pkcs7DER
        & Hreach & Hnow & Hcreate & _ & Hder & Hout).
  exists csr, w2, certBytes,
    (signingTemplate csr serialNumber now validityDays),
    (signingTemplate csr serialNumber now validityDays).
  destruct (signingTemplate_fields csr serialNumber now validityDays)
    as (_ & Hsubject & _).
  cbv zeta in *. repeat split; try done. by exists pkcs7DER.
Qed.

(** C9: signCSRToPKCS7 does not depend on the signature check of the request
    or on the public key that belongs to the signing key: replacing both in
    the library leaves the function as it is.  For every parseable request
    and every private key, once [x509.CreateCertificate] accepts the template
    with the public key of the request and the private key supplied, and the
    certificate parses, the function returns the envelope of that
    certificate; nothing is asked of the request's signature or of how its
    public key relates to the private key. *)
Theorem signCSRToPKCS7_no_key_check (csrPEM : string) (key : PrivateKey)
    (validityDays : Z) (w : World) :
  (∀ checkSignature public,
     @signCSRToPKCS7 _ (withKeyChecks checkSignature public) csrPEM key validityDays w
     = signCSRToPKCS7 csrPEM key validityDays w)
  ∧ (∀ csr serialNumber w1 now w2 certBytes cert w3,
       reachesSerial csrPEM w csr serialNumber w1 →
       time_Now w1 = (now, w2) →
       (let template := signingTemplate csr serialNumber now validityDays in
        x509_CreateCertificate rand_Reader template template (CR_PublicKey csr) key w2
        = (Ok certBytes, w3)) →
       x509_ParseCertificate certBytes = Ok cert →
       ∃ pkcs7DER,
         marshalPKCS7 certBytes w3 = (inl pkcs7DER, w3)
         ∧ signCSRToPKCS7 csrPEM key validityDays w
           = ((base64.EncodeToString pkcs7DER, None), w3)).
Proof.
  split; [reflexivity|].
  intros csr serialNumber w1 now w2 certBytes cert w3 Hreach Hnow Hcreate Hcert.
  by eapply signCSRToPKCS7_Ok_intro.
Qed.

(** C10, as it holds of the code: no statement of signCSRToPKCS7 looks at
    validityDays.  For every integer validityDays, zero and negative ones
    included, a run on a request that decodes and parses, once the serial
    number is drawn, hands the library the template whose notBefore is the
    time read and whose notAfter is that time moved by validityDays days; it
    succeeds exactly when the library creates the certificate from this
    template and parses it, and a refusal of the library is returned as
    "failed to create certificate".  Where moving a time by days adds 86400
    seconds a day to the seconds it holds, within int64 as package time does
    in the UTC location, notAfter is not after notBefore whenever
    validityDays <= 0 and the sum does not fall below the smallest int64. *)
Theorem signCSRToPKCS7_validityDays_unchecked (csrPEM : string) (key : PrivateKey)
    (validityDays : Z) (w w1 w2 : World) (csr : CertificateRequest)
    (serialNumber : Z) (now : Time) (sec : Time → Z) :
  reachesSerial csrPEM w csr serialNumber w1 →
  time_Now w1 = (now, w2) →
  let template := signingTemplate csr serialNumber now validityDays in
  ((∃ out w3, signCSRToPKCS7 csrPEM key validityDays w = ((out, None), w3))
   ↔ ∃ certBytes w3 cert,
       x509_CreateCertificate rand_Reader template template (CR_PublicKey csr) key w2
       = (Ok certBytes, w3)
       ∧ x509_ParseCertificate certBytes = Ok cert)
  ∧ (∀ e w3,
       x509_CreateCertificate rand_Reader template template (CR_PublicKey csr) key w2
       = (Err e, w3) →
       signCSRToPKCS7 csrPEM key validityDays w
       = ((EmptyString, Some (Errorf_w "failed to create certificate" e)), w3))
  ∧ NotBefore template = now
  ∧ NotAfter template = Time_AddDate now 0 0 validityDays
  ∧ (sec (Time_AddDate now 0 0 validityDays)
     = GoTime.int64 (sec now + GoTime.secondsPerDay * validityDays) →
     Time_After (Time_AddDate now 0 0 validityDays) now
     = GoTime.After (sec (Time_AddDate now 0 0 validityDays)) (sec now) →
     validityDays ≤ 0 →
     - 2 ^ 63 ≤ sec now + GoTime.secondsPerDay * validityDays →
     sec now < 2 ^ 63 →
     Time_After (NotAfter template) (NotBefore template) = false).
Proof.
  intros Hreach Hnow template.
  destruct (signingTemplate_fields csr serialNumber now validityDays)
    as (_ & _ & HnotBefore & HnotAfter & _).
  cbv zeta in HnotBefore, HnotAfter. subst template.
  split; [|split; [|split; [done|split; [done|]]]].
  - split.
    + intros (out & w3 & Hrun).
      apply signCSRToPKCS7_Ok_inv in Hrun
        as (csr' & serialNumber' & w1' & now' & w2' & certBytes & cert & pkcs7DER
            & [block' Hdecode' Hparse' Hserial'] & Hnow' & Hcreate & Hcert & _).
      destruct Hreach as [block Hdecode Hparse Hserial].
      rewrite Hdecode in Hdecode'. injection Hdecode' as <-.
      rewrite Hparse in Hparse'. injection Hparse' as <-.
      rewrite Hserial in Hserial'. injection Hserial' as <- <-.
      rewrite Hnow in Hnow'. injection Hnow' as <- <-.
      by exists certBytes, w3, cert.
    + intros (certBytes & w3 & cert & Hcreate & Hcert).
      destruct (signCSRToPKCS7_Ok_intro _ _ _ _ _ _ _ _ _ _ _ _ Hreach Hnow Hcreate Hcert)
        as (pkcs7DER & _ & Hrun).
      by eauto.
  - intros e w3 Hcreate. destruct Hreach as [block Hdecode Hparse Hserial].
    unfold_sign. rewrite Hdecode, Hparse, Hserial, Hnow.
    fold (signingTemplate csr serialNumber now validityDays).
    by rewrite Hcreate.
  - intros Hadd Hafter Hdays Hlow Hhigh.
    rewrite HnotBefore, HnotAfter, Hafter, Hadd.
    unfold GoTime.After, GoTime.int64, GoTime.secondsPerDay in *.
    rewrite Z.mod_small by lia. apply Z.ltb_ge. lia.
Qed.

End Signing.

(** ** The command *)
Section Command.
Context `{L : GoLib}.


(** C8: the run of the command is the same for every argument list (and
    every command value), and the CSR template of createCSR always names
    ECDSA-with-SHA-256 as its signature algorithm. *)
Theorem CertificateGeneration_ignores_args :
  (∀ (cmd1 cmd2 : Command) (args1 args2 : list string) (w : World),
     CertificateGeneration cmd1 args1 w = CertificateGeneration cmd2 args2 w)
  ∧ (∀ commonName domainComponent altNames country state locality organization
       organizationalUnit,
       CR_SignatureAlgorithm
         (csrTemplate commonName domainComponent altNames country state locality
                      organization organizationalUnit)
       = ECDSAWithSHA256).
Proof. split; reflexivity. Qed.

End Command.

(** ** The properties on the stand-in library *)
Section StandIn.
#[local] Existing Instance Stub.types.
#[local] Existing Instance Stub.lib.

Lemma runAlice_eq :
  signCSRToPKCS7 Stub.csrAlice "bob"%string 365 Stub.w0
  = ((fst (fst runAlice), None), snd runAlice).
Proof. vm_compute. reflexivity. Defined.

Lemma Stub_randInt_contract (max : Z) (w0 : World) (n : Z) (w1 : World) :
  0 < max → rand_Int rand_Reader max w0 = (Ok n, w1) → 0 ≤ n < max.
Proof.
  intros Hmax. cbn. unfold Stub.randInt.
  destruct (max <=? 0) eqn:Hle; [done|].
  intros [= <- _]. by apply Z.mod_pos_bound.
Defined.

(** The steps of the run on the forged request: its signature does not
    check and its public key is not bob's. *)
Lemma Stub_forged_steps :
  ∃ csr serialNumber w1 now w2 certBytes cert w3,
    reachesSerial Stub.csrForged Stub.w0 csr serialNumber w1
    ∧ time_Now w1 = (now, w2)
    ∧ x509_CreateCertificate rand_Reader
        (signingTemplate csr serialNumber now (-3))
        (signingTemplate csr serialNumber now (-3))
        (CR_PublicKey csr) "bob"%string w2 = (Ok certBytes, w3)
    ∧ x509_ParseCertificate certBytes = Ok cert
    ∧ CertificateRequest_CheckSignature csr
      = Some (errorString "x509: ECDSA verification failure")
    ∧ CR_PublicKey csr ≠ Some (PrivateKey_Public "bob"%string).
Proof.
  do 8 eexists. split; [econstructor; reflexivity|].
  split; [reflexivity|]. split; [reflexivity|]. split; [reflexivity|].
  split; [reflexivity|]. discriminate.
Defined.

Lemma marshalPKCS7_not_spec_envelope_witness :
  [x30; x03; x02; x01; x05] ≠ []
  ∧ marshalPKCS7 [x30; x03; x02; x01; x05] Stub.w0
    = (inl [x30; x2a; x06; x09; x2a; x86; x48; x86; xf7; x0d; x01; x07; x02;
            xa0; x1d; x30; x1b; x02; x01; x01; x30; x00;
            x30; x0b; x06; x09; x2a; x86; x48; x86; xf7; x0d; x01; x07; x01;
            x30; x05; x30; x03; x02; x01; x05; x30; x00], Stub.w0)
  ∧ marshalPKCS7 [x30; x03; x02; x01; x05] Stub.w0
    ≠ (inl (specEnvelope [x30; x03; x02; x01; x05]), Stub.w0).
Proof.
  assert ([x30; x03; x02; x01; x05] ≠ @nil byte) as Hne by discriminate.
  split; [exact Hne|].
  exact (marshalPKCS7_not_spec_envelope [x30; x03; x02; x01; x05] Stub.w0 Hne).
Defined.


Lemma signCSRToPKCS7_errors_witness :
  pem_Decode EmptyString = None
  ∧ signCSRToPKCS7 EmptyString "bob"%string 365 Stub.w0
    = ((EmptyString, Some (errorString "failed to decode CSR PEM")), Stub.w0).
Proof.
  assert (pem_Decode EmptyString = None) as Hdecode by reflexivity.
  split; [exact Hdecode|].
  exact (proj1 (signCSRToPKCS7_errors EmptyString "bob"%string 365 Stub.w0) Hdecode).
Defined.

Lemma signCSRToPKCS7_serialNumber_witness :
  signCSRToPKCS7 Stub.csrAlice "bob"%string 365 Stub.w0
  = ((fst (fst runAlice), None), snd runAlice)
  ∧ ∃ csr serialNumber w1 now w2 certBytes,
      rand_Int rand_Reader (2 ^ 128) Stub.w0 = (Ok serialNumber, w1)
      ∧ time_Now w1 = (now, w2)
      ∧ (let template := signingTemplate csr serialNumber now 365 in
         x509_CreateCertificate rand_Reader template template (CR_PublicKey csr)
           "bob"%string w2 = (Ok certBytes, snd runAlice)
         ∧ SerialNumber template = serialNumber)
      ∧ 0 ≤ serialNumber < 2 ^ 128.
Proof.
  split; [exact runAlice_eq|].
  exact (signCSRToPKCS7_serialNumber Stub.csrAlice "bob"%string 365 Stub.w0
           (snd runAlice) (fst (fst runAlice)) Stub_randInt_contract runAlice_eq).
Defined.

Lemma signCSRToPKCS7_URIs_witness :
  signCSRToPKCS7 Stub.csrAlice "bob"%string 365 Stub.w0
  = ((fst (fst runAlice), None), snd runAlice)
  ∧ ∃ csr serialNumber w1 now w2 certBytes,
      reachesSerial Stub.csrAlice Stub.w0 csr serialNumber w1
      ∧ time_Now w1 = (now, w2)
      ∧ (let template := signingTemplate csr serialNumber now 365 in
         x509_CreateCertificate rand_Reader template template (CR_PublicKey csr)
           "bob"%string w2 = (Ok certBytes, snd runAlice)
         ∧ DNSNames template = CR_DNSNames csr
         ∧ URIs template = omap absoluteURI (CR_DNSNames csr)
         ∧ (∀ u, u ∈ URIs template ↔
                 ∃ name, name ∈ CR_DNSNames csr
                         ∧ url_Parse name = Ok u ∧ URL_Scheme u ≠ EmptyString)).
Proof.
  split; [exact runAlice_eq|].
  exact (signCSRToPKCS7_URIs Stub.csrAlice "bob"%string 365 Stub.w0
           (snd runAlice) (fst (fst runAlice)) runAlice_eq).
Defined.

Lemma signCSRToPKCS7_self_signed_witness :
  signCSRToPKCS7 Stub.csrAlice "bob"%string 365 Stub.w0
  = ((fst (fst runAlice), None), snd runAlice)
  ∧ ∃ csr w2 certBytes (template parent : Certificate),
      x509_CreateCertificate rand_Reader template parent (CR_PublicKey csr)
        "bob"%string w2 = (Ok certBytes, snd runAlice)
      ∧ parent = template
      ∧ Subject parent = Subject template
      ∧ Subject template = CR_Subject csr
      ∧ ∃ pkcs7DER,
          marshalPKCS7 certBytes (snd runAlice) = (inl pkcs7DER, snd runAlice)
          ∧ fst (fst runAlice) = base64.EncodeToString pkcs7DER.
Proof.
  split; [exact runAlice_eq|].
  exact (signCSRToPKCS7_self_signed Stub.csrAlice "bob"%string 365 Stub.w0
           (snd runAlice) (fst (fst runAlice)) runAlice_eq).
Defined.

(** The forged request, whose signature does not check and whose public key
    is not the signing key's, is turned into a certificate all the same. *)
Lemma signCSRToPKCS7_no_key_check_witness :
  ∃ csr out w3,
    CertificateRequest_CheckSignature csr
    = Some (errorString "x509: ECDSA verification failure")
    ∧ CR_PublicKey csr ≠ Some (PrivateKey_Public "bob"%string)
    ∧ signCSRToPKCS7 Stub.csrForged "bob"%string (-3) Stub.w0 = ((out, None), w3).
Proof.
  destruct Stub_forged_steps
    as (csr & serialNumber & w1 & now & w2 & certBytes & cert & w3
        & Hreach & Hnow & Hcreate & Hcert & Hcheck & Hkey).
  destruct (proj2 (signCSRToPKCS7_no_key_check (L := Stub.lib) Stub.csrForged "bob"%string (-3) Stub.w0)
              csr serialNumber w1 now w2 certBytes cert w3 Hreach Hnow Hcreate Hcert)
    as (pkcs7DER & _ & Hrun).
  exists csr, (base64.EncodeToString pkcs7DER), w3. by repeat split.
Defined.

End StandIn.

(** ** The calendar of package time on known dates *)

(** 1700000000 seconds after the Unix epoch is November 14, 2023. *)
Example absDate_2023 :
  GoTime.absDate (GoTime.abs (1700000000 + GoTime.unixToInternal)) = (2023, 11, 14).
Proof. vm_compute. reflexivity. Qed.

(** February 29, 2000 and January 1, 2100. *)
Example absDate_leap_day :
  GoTime.absDate (GoTime.abs (951782400 + GoTime.unixToInternal)) = (2000, 2, 29)
  ∧ GoTime.absDate (GoTime.abs (4102444800 + GoTime.unixToInternal)) = (2100, 1, 1).
Proof. split; vm_compute; reflexivity. Qed.

(** One month after January 31, 2024 is March 2, 2024; 365 days are
    31536000 seconds. *)
Example AddDate_known :
  GoTime.AddDate (1706659200 + GoTime.unixToInternal) 0 1 0
  = 1709337600 + GoTime.unixToInternal
  ∧ GoTime.AddDate (1700000000 + GoTime.unixToInternal) 0 0 365
    = 1700000000 + 31536000 + GoTime.unixToInternal.
Proof. split; vm_compute; reflexivity. Qed.

(** The last second that [asn1.Marshal] can write is the last one of the
    year 9999. *)
Example marshalTime_9999 :
  GoTime.marshalTime (253402300799 + GoTime.unixToInternal) = None
  ∧ GoTime.marshalTime (253402300800 + GoTime.unixToInternal)
    = Some (errorString
              "asn1: structure error: cannot represent time as GeneralizedTime")
  ∧ GoTime.marshalTime (-1) = None
  ∧ GoTime.marshalTime (- 366 * 86400 - 1)
    = Some (errorString
              "asn1: structure error: cannot represent time as GeneralizedTime").
Proof. repeat split; vm_compute; reflexivity. Qed.

(** ** The validity period on the clock of package time *)
Section StandInUTC.
#[local] Existing Instance Stub.types.
#[local] Existing Instance StubUTC.lib.

(** The steps of the run on alice's request for -3 days, the clock read at
    1700000000 seconds after the Unix epoch. *)
Lemma StubUTC_alice_steps :
  ∃ csr serialNumber w1 w2 certBytes cert w3,
    reachesSerial Stub.csrAlice Stub.w0 csr serialNumber w1
    ∧ time_Now w1 = (1700000000 + GoTime.unixToInternal, w2)
    ∧ x509_CreateCertificate rand_Reader
        (signingTemplate csr serialNumber (1700000000 + GoTime.unixToInternal) (-3))
        (signingTemplate csr serialNumber (1700000000 + GoTime.unixToInternal) (-3))
        (CR_PublicKey csr) "bob"%string w2 = (Ok certBytes, w3)
    ∧ x509_ParseCertificate certBytes = Ok cert.
Proof.
  do 7 eexists. split; [econstructor; vm_compute; reflexivity|].
  split; [vm_compute; reflexivity|]. split; vm_compute; reflexivity.
Defined.

(** C10, as the claim is worded, fails on alice's request, which decodes,
    parses and carries her own signature.  With validityDays = 10000000 the
    year of notAfter is 29402 and the run ends with the error of
    [x509.CreateCertificate]; with validityDays = -9223372036854775807, the
    smallest int64 plus one, the seconds wrap around and the certificate is
    created with notAfter one day after notBefore. *)
Lemma signCSRToPKCS7_validityDays_counterexample :
  (∃ w',
     signCSRToPKCS7 Stub.csrAlice "bob"%string 10000000 Stub.w0
     = ((EmptyString,
         Some (Errorf_w "failed to create certificate"
                 (errorString
                    "asn1: structure error: cannot represent time as GeneralizedTime"))),
        w')
     ∧ GoTime.Year (Time_AddDate (1700000000 + GoTime.unixToInternal) 0 0 10000000)
       = 29402)
  ∧ ∃ csr serialNumber w1 now w2 out w3,
      reachesSerial Stub.csrAlice Stub.w0 csr serialNumber w1
      ∧ time_Now w1 = (now, w2)
      ∧ signCSRToPKCS7 Stub.csrAlice "bob"%string (- 2 ^ 63 + 1) Stub.w0
        = ((out, None), w3)
      ∧ - 2 ^ 63 + 1 ≤ 0
      ∧ NotAfter (signingTemplate csr serialNumber now (- 2 ^ 63 + 1))
        = NotBefore (signingTemplate csr serialNumber now (- 2 ^ 63 + 1)) + 86400
      ∧ Time_After (NotAfter (signingTemplate csr serialNumber now (- 2 ^ 63 + 1)))
                   (NotBefore (signingTemplate csr serialNumber now (- 2 ^ 63 + 1)))
        = true.
Proof.
  split.
  - eexists. split; vm_compute; reflexivity.
  - do 7 eexists. split; [econstructor; vm_compute; reflexivity|].
    split; [vm_compute; reflexivity|]. split; [vm_compute; reflexivity|].
    split; [done|]. split; vm_compute; reflexivity.
Defined.

(** A validity of -3 days is accepted, and notAfter is not after notBefore. *)
Lemma signCSRToPKCS7_validityDays_unchecked_witness :
  ∃ csr serialNumber now out w3,
    signCSRToPKCS7 Stub.csrAlice "bob"%string (-3) Stub.w0 = ((out, None), w3)
    ∧ Time_After (NotAfter (signingTemplate csr serialNumber now (-3)))
                 (NotBefore (signingTemplate csr serialNumber now (-3))) = false.
Proof.
  destruct StubUTC_alice_steps
    as (csr & serialNumber & w1 & w2 & certBytes & cert & w3
        & Hreach & Hnow & Hcreate & Hcert).
  destruct (signCSRToPKCS7_validityDays_unchecked (L := StubUTC.lib)
              Stub.csrAlice "bob"%string (-3) Stub.w0 w1 w2 csr serialNumber
              (1700000000 + GoTime.unixToInternal) (λ t, t) Hreach Hnow)
    as (Hiff & _ & _ & _ & Horder).
  destruct (proj2 Hiff) as (out & w3' & Hrun).
  { exists certBytes, w3, cert. split; [exact Hcreate|exact Hcert]. }
  exists csr, serialNumber, (1700000000 + GoTime.unixToInternal), out, w3'.
  split; [exact Hrun|].
  apply Horder; [vm_compute; reflexivity|reflexivity|lia|vm_compute; discriminate
                |vm_compute; reflexivity].
Defined.

End StandInUTC.

(** * Properties of package files *)

(** ** [strings.Trim] with one cut character *)

Lemma trimLeftByte_repeat (s : list rune) (c : rune) :
  ∃ n, s = repeat c n ++ trimLeftByte s c.
Proof.
  induction s as [|x s [n IH]]; [by exists 0%nat|].
  cbn [trimLeftByte]. destruct (x =? c) eqn:Hx.
  - apply Z.eqb_eq in Hx as ->. exists (S n). cbn. by rewrite <- IH.
  - by exists 0%nat.
Qed.

Lemma trimLeftByte_head (s : list rune) (c : rune) :
  head (trimLeftByte s c) ≠ Some c.
Proof.
  induction s as [|x s IH]; [done|].
  cbn [trimLeftByte]. destruct (x =? c) eqn:Hx; [done|].
  cbn. intros [= ->]. by rewrite Z.eqb_refl in Hx.
Qed.

Lemma trimLeftByte_id (s : list rune) (c : rune) :
  head s ≠ Some c → trimLeftByte s c = s.
Proof.
  destruct s as [|x s]; [done|]. cbn. intros Hne.
  destruct (x =? c) eqn:Hx; [|done]. apply Z.eqb_eq in Hx as ->. done.
Qed.

Lemma trimRightByte_repeat (s : list rune) (c : rune) :
  ∃ n, s = trimRightByte s c ++ repeat c n.
Proof.
  unfold trimRightByte.
  destruct (trimLeftByte_repeat (reverse s) c) as [n Hn].
  exists n. apply (inj reverse). rewrite reverse_app, reverse_involutive.
  rewrite Hn at 1. f_equal. clear.
  induction n as [|n IH]; [done|]. cbn [repeat]. rewrite reverse_cons, <- IH.
  clear. induction n as [|n IH]; [done|]. cbn. by rewrite <- IH.
Qed.

Lemma trimRightByte_last (s : list rune) (c : rune) :
  last (trimRightByte s c) ≠ Some c.
Proof.
  unfold trimRightByte. rewrite last_reverse. apply trimLeftByte_head.
Qed.

Lemma strings_Trim_head (s : list rune) (c : rune) :
  head (strings_Trim s c) ≠ Some c.
Proof. apply trimLeftByte_head. Qed.

Lemma strings_Trim_infix (s : list rune) (c : rune) :
  ∃ n m, s = repeat c n ++ strings_Trim s c ++ repeat c m.
Proof.
  unfold strings_Trim.
  destruct (trimRightByte_repeat s c) as [m Hm].
  destruct (trimLeftByte_repeat (trimRightByte s c) c) as [n Hn].
  exists n, m. rewrite app_assoc, <- Hn. exact Hm.
Qed.

Lemma strings_Trim_last (s : list rune) (c : rune) :
  last (strings_Trim s c) ≠ Some c.
Proof.
  unfold strings_Trim.
  pose proof (trimRightByte_last s c) as Hlast.
  destruct (trimLeftByte_repeat (trimRightByte s c) c) as [n Hn].
  destruct (trimLeftByte (trimRightByte s c) c) as [|x l] eqn:Ht; [done|].
  rewrite Hn, last_app in Hlast. by destruct (last (x :: l)).
Qed.

(** When the text does not begin with the cut character, only its end is
    trimmed, and something is left. *)
Lemma strings_Trim_keeps_head (s : list rune) (c : rune) :
  s ≠ [] → head s ≠ Some c →
  strings_Trim s c = trimRightByte s c
  ∧ strings_Trim s c ≠ []
  ∧ head (strings_Trim s c) = head s.
Proof.
  intros Hne Hhead. unfold strings_Trim.
  destruct (trimRightByte_repeat s c) as [m Hm].
  destruct (trimRightByte s c) as [|x t] eqn:Ht.
  - exfalso. cbn in Hm. subst s. destruct m; [done|]. by cbn in Hhead.
  - assert (head (x :: t) ≠ Some c) as Hx by (by rewrite Hm in Hhead).
    rewrite trimLeftByte_id by done. repeat split; [done|]. by rewrite Hm.
Qed.

Lemma strings_Trim_absent (s : list rune) (c : rune) :
  c ∉ s → strings_Trim s c = s.
Proof.
  intros Hc. destruct s as [|x s]; [done|].
  assert (head (x :: s) ≠ Some c) as Hhead.
  { cbn. intros [= ->]. apply Hc. by left. }
  destruct (strings_Trim_keeps_head (x :: s) c) as (-> & _ & _); [done..|].
  destruct (trimRightByte_repeat (x :: s) c) as [[|m] Hm].
  - by rewrite app_nil_r in Hm.
  - exfalso. apply Hc. rewrite Hm, elem_of_app. right. by left.
Qed.

Lemma doubled_snoc (c x : rune) (s : list rune) :
  doubled c (s ++ [x]) → doubled c s ∨ (last s = Some c ∧ x = c).
Proof.
  intros (l1 & l2 & Heq).
  destruct l2 as [|y l2 _] using rev_ind.
  - right. change (l1 ++ [c; c]) with (l1 ++ [c] ++ [c]) in Heq.
    rewrite app_assoc in Heq. apply app_inj_tail in Heq as [-> ->].
    by rewrite last_snoc.
  - left. change (l1 ++ c :: c :: l2 ++ [y]) with (l1 ++ (c :: c :: l2) ++ [y]) in Heq.
    rewrite app_assoc in Heq. apply app_inj_tail in Heq as [-> _].
    by exists l1, l2.
Qed.

Lemma doubled_infix (c : rune) (s1 s2 s3 : list rune) :
  doubled c s2 → doubled c (s1 ++ s2 ++ s3).
Proof.
  intros (l1 & l2 & ->). exists (s1 ++ l1), (l2 ++ s3).
  by rewrite <- !app_assoc.
Qed.

(** ** The loop of [cleanFileName] *)
Section CleanLoop.
Context `{U : Unicode}.

Lemma cleanLoop_snoc (p : list rune) (r : rune) :
  cleanLoop (p ++ [r]) = cleanStep (cleanLoop p) r.
Proof. unfold cleanLoop. by rewrite fold_left_app. Qed.

Ltac step_cases st r :=
  unfold cleanStep;
  destruct (unicode_IsLetter r) eqn:?;
  [|destruct (unicode_IsDigit r) eqn:?;
    [destruct (lastWasLetter st) eqn:?
    |destruct (unicode_IsSpace r) eqn:?;
     [destruct (lastWasSpace st) eqn:?; cbn [negb andb];
      [|case_bool_decide]|]]];
  cbn [builder lastWasSpace lastWasLetter].

(** Nothing is written before the first letter, and the first rune written
    is a lowered letter. *)
Lemma cleanLoop_first (p : list rune) :
  let st := cleanLoop p in
  (builder st = [] →
     lastWasSpace st = false ∧ lastWasLetter st = false
     ∧ Forall (λ r, unicode_IsLetter r = false) p)
  ∧ (builder st ≠ [] →
     ∃ r, r ∈ p ∧ unicode_IsLetter r = true
          ∧ head (builder st) = Some (unicode_ToLower r)).
Proof.
  induction p as [|r p IH] using rev_ind; [by split|].
  cbv zeta in *. rewrite cleanLoop_snoc.
  destruct IH as [IHnil IHcons]. set (st := cleanLoop p) in *.
  assert (∀ b : list rune, b ≠ [] →
            (∃ r0, r0 ∈ p ∧ unicode_IsLetter r0 = true
                   ∧ head (builder st) = Some (unicode_ToLower r0)) →
            ∃ r0, r0 ∈ p ++ [r] ∧ unicode_IsLetter r0 = true
                  ∧ head (builder st ++ b) = Some (unicode_ToLower r0)) as Hgrow.
  { intros b _ (r0 & Hin & Hl & Hhd). exists r0. rewrite elem_of_app.
    split; [by left|]. split; [done|].
    destruct (builder st); [done|]. done. }
  assert (Forall (λ r0, unicode_IsLetter r0 = false) p →
          unicode_IsLetter r = false →
          Forall (λ r0, unicode_IsLetter r0 = false) (p ++ [r])) as Hall.
  { intros ? ?. apply Forall_app. split; [done|]. by constructor. }
  assert ((∃ r0, r0 ∈ p ∧ unicode_IsLetter r0 = true
                 ∧ head (builder st) = Some (unicode_ToLower r0)) →
          ∃ r0, r0 ∈ p ++ [r] ∧ unicode_IsLetter r0 = true
                ∧ head (builder st) = Some (unicode_ToLower r0)) as Hkeep.
  { intros (r0 & Hin & Hl & Hhd). exists r0. rewrite elem_of_app. by eauto. }
  step_cases st r.
  - split; [by intros [_ [=]]%app_eq_nil|]. intros _.
    destruct (builder st) as [|x b] eqn:Hb.
    + exists r. rewrite elem_of_app, list_elem_of_singleton. by eauto.
    + destruct IHcons as (r0 & Hin & Hl & Hhd); [done|].
      exists r0. rewrite elem_of_app. by eauto.
  - split; [by intros [_ [=]]%app_eq_nil|]. intros _.
    destruct (builder st) as [|x b] eqn:Hb.
    + destruct IHnil as (_ & ? & _); [done|]. congruence.
    + destruct IHcons as (r0 & Hin & Hl & Hhd); [done|].
      exists r0. rewrite elem_of_app. by eauto.
  - split.
    + intros Hb. destruct (IHnil Hb) as (? & ? & ?). by eauto.
    + intros Hb. by apply Hkeep, IHcons.
  - split.
    + intros Hb. destruct (IHnil Hb) as (? & ? & ?). by eauto.
    + intros Hb. by apply Hkeep, IHcons.
  - split; [by intros [_ [=]]%app_eq_nil|]. intros _.
    destruct IHcons as (r0 & Hin & Hl & Hhd); [done|].
    exists r0. rewrite elem_of_app. split; [by left|]. split; [done|].
    by destruct (builder st).
  - split.
    + intros Hb. destruct (IHnil Hb) as (? & ? & ?). by eauto.
    + intros Hb. by apply Hkeep, IHcons.
  - split.
    + intros Hb. destruct (IHnil Hb) as (? & ? & ?). by eauto.
    + intros Hb. by apply Hkeep, IHcons.
Qed.

Lemma cleanFileName_outcome (name : list rune) :
  (∀ r, unicode_IsLetter r = true → unicode_ToLower r ≠ underscore) →
  (Forall (λ r, unicode_IsLetter r = false) name →
   cleanFileName name
   = Err (errorString ("cleaned filename is empty for input: "
                       +:+ string_of_runes name)))
  ∧ (Exists (λ r, unicode_IsLetter r = true) name →
     ∃ cleanedName, cleanFileName name = Ok cleanedName ∧ cleanedName ≠ []).
Proof.
  intros Hlower. destruct (cleanLoop_first name) as [Hnil Hcons].
  cbv zeta in *. unfold cleanFileName. split.
  - intros Hall. destruct (builder (cleanLoop name)) as [|x b] eqn:Hb; [done|].
    destruct Hcons as (r & Hin & Hletter & _); [done|].
    rewrite Forall_forall in Hall. by rewrite (Hall r) in Hletter.
  - intros Hex. destruct (builder (cleanLoop name)) as [|x b] eqn:Hb.
    + destruct Hnil as (_ & _ & Hall); [done|].
      apply Exists_exists in Hex as (r & Hin & Hletter).
      rewrite Forall_forall in Hall. by rewrite (Hall r) in Hletter.
    + destruct Hcons as (r & _ & Hletter & Hhead); [done|].
      destruct (strings_Trim_keeps_head (x :: b) underscore) as (_ & Hne & _);
        [done| |].
      { rewrite Hhead. intros [= Heq]. by apply (Hlower r). }
      rewrite bool_decide_eq_false_2 by done. by eexists.
Qed.

(** X1: a name without any letter (the empty name included) is refused
    with the error "cleaned filename is empty for input: <name>"; and, the
    lower case of a letter never being '_', a name with a letter is cleaned to
    a non-empty text. *)
Theorem cleanFileName_error_iff (name : list rune) :
  (∀ r, unicode_IsLetter r = true → unicode_ToLower r ≠ underscore) →
  (Forall (λ r, unicode_IsLetter r = false) name →
   cleanFileName name
   = Err (errorString ("cleaned filename is empty for input: "
                       +:+ string_of_runes name)))
  ∧ (Exists (λ r, unicode_IsLetter r = true) name →
     ∃ cleanedName, cleanFileName name = Ok cleanedName ∧ cleanedName ≠ []).
Proof. exact (cleanFileName_outcome name). Qed.

Lemma writtenFrom_snoc (p : list rune) (r x : rune) :
  writtenFrom p x → writtenFrom (p ++ [r]) x.
Proof.
  unfold writtenFrom. setoid_rewrite elem_of_app.
  intros [(r0 & ? & ? & ?)|[(? & ? & ?)|(? & r0 & ? & ? & ? & ?)]]; eauto 10.
Qed.

Lemma cleanLoop_written (p : list rune) :
  Forall (writtenFrom p) (builder (cleanLoop p))
  ∧ (length (builder (cleanLoop p)) ≤ length p)%nat.
Proof.
  induction p as [|r p [IHall IHlen]] using rev_ind; [by split|].
  rewrite cleanLoop_snoc, length_app. cbn [length].
  assert (Forall (writtenFrom (p ++ [r])) (builder (cleanLoop p))) as Hall.
  { eapply Forall_impl; [exact IHall|]. intros x. apply writtenFrom_snoc. }
  set (st := cleanLoop p) in *.
  assert (r ∈ p ++ [r]) as Hin by (rewrite elem_of_app, list_elem_of_singleton; by right).
  step_cases st r; (split; [|rewrite ?length_app; cbn [length]; lia]); try done.
  - apply Forall_app. split; [done|]. constructor; [|done]. left. by eauto.
  - apply Forall_app. split; [done|]. constructor; [|done]. right. left. by eauto.
  - apply Forall_app. split; [done|]. constructor; [|done]. right. right.
    split; [done|]. by eauto 10.
Qed.

(** X2: a cleaned name is not longer than the name, and each of its runes is
    the lower case of a letter of the name, a digit of the name, or an
    underscore standing for white space of the name. *)
Theorem cleanFileName_alphabet (name cleanedName : list rune) :
  cleanFileName name = Ok cleanedName →
  (length cleanedName ≤ length name)%nat
  ∧ ∀ x, x ∈ cleanedName →
      (∃ r, r ∈ name ∧ unicode_IsLetter r = true ∧ x = unicode_ToLower r)
      ∨ (x ∈ name ∧ unicode_IsLetter x = false ∧ unicode_IsDigit x = true)
      ∨ (x = underscore
         ∧ ∃ r, r ∈ name ∧ unicode_IsLetter r = false ∧ unicode_IsDigit r = false
                ∧ unicode_IsSpace r = true).
Proof.
  unfold cleanFileName. cbv zeta. case_bool_decide; [done|]. intros [= <-].
  destruct (cleanLoop_written name) as [Hall Hlen].
  destruct (strings_Trim_infix (builder (cleanLoop name)) underscore)
    as (n & m & Hinfix).
  split.
  - rewrite Hinfix, !length_app in Hlen. lia.
  - rewrite Hinfix in Hall.
    apply Forall_app in Hall as [_ [Hall _]%Forall_app].
    rewrite Forall_forall in Hall. intros x Hx. by apply (Hall x).
Qed.

Section Facts.
Hypothesis facts : UnicodeFacts.

Lemma lower_not_underscore (r : rune) :
  unicode_IsLetter r = true → unicode_ToLower r ≠ underscore.
Proof.
  intros Hr Heq. apply (ToLower_letter facts) in Hr. rewrite Heq in Hr.
  by rewrite (underscore_letter facts) in Hr.
Qed.

Lemma digit_not_underscore (r : rune) :
  unicode_IsDigit r = true → r ≠ underscore.
Proof. intros Hr ->. by rewrite (underscore_digit facts) in Hr. Qed.

(** An underscore at the end of the builder was written for white space,
    and the flag still says so. *)
Lemma cleanLoop_underscores (p : list rune) :
  let st := cleanLoop p in
  (last (builder st) = Some underscore → lastWasSpace st = true)
  ∧ ¬ doubled underscore (builder st).
Proof.
  induction p as [|r p [IHlast IHdbl]] using rev_ind.
  { split; [done|]. intros (l1 & l2 & Heq). by destruct l1. }
  cbv zeta in *. rewrite cleanLoop_snoc. set (st := cleanLoop p) in *.
  step_cases st r;
    try (split; [intros Hl; specialize (IHlast Hl); congruence|done]).
  - split.
    + rewrite last_snoc. intros [= Heq]. by apply lower_not_underscore in Heq.
    + intros [?|[_ Heq]]%doubled_snoc; [done|]. by apply lower_not_underscore in Heq.
  - split.
    + rewrite last_snoc. intros [= Heq]. by apply digit_not_underscore in Heq.
    + intros [?|[_ Heq]]%doubled_snoc; [done|]. by apply digit_not_underscore in Heq.
  - split; [done|].
    intros [?|[Hlast _]]%doubled_snoc; [done|]. apply IHlast in Hlast. congruence.
Qed.

(** X3: a cleaned name does not begin or end with an underscore and never
    has two underscores in a row. *)
Theorem cleanFileName_underscores (name cleanedName : list rune) :
  cleanFileName name = Ok cleanedName →
  head cleanedName ≠ Some underscore
  ∧ last cleanedName ≠ Some underscore
  ∧ ¬ doubled underscore cleanedName.
Proof.
  unfold cleanFileName. cbv zeta. case_bool_decide; [done|]. intros [= <-].
  split; [apply strings_Trim_head|]. split; [apply strings_Trim_last|].
  destruct (cleanLoop_underscores name) as [_ Hdbl]. cbv zeta in Hdbl.
  destruct (strings_Trim_infix (builder (cleanLoop name)) underscore)
    as (n & m & Hinfix).
  intros Hd. apply Hdbl. rewrite Hinfix. by apply doubled_infix.
Qed.

(** *** The shape of the builder *)

Lemma shaped_app (l1 l2 : list rune) :
  cleanShaped l1 → cleanShaped l2 → cleanShaped (l1 ++ l2).
Proof.
  intros H1 H2. induction H1; cbn [app];
    [done|by apply shaped_letter|by apply shaped_letter_digit|by apply shaped_underscore].
Qed.

Lemma shaped_snoc_underscore_inv (m : list rune) :
  cleanShaped m → ∀ l, m = l ++ [underscore] → cleanShaped l.
Proof.
  induction 1 as [|x l0 Hx Hlow _ IH|x d l0 Hx Hlow Hd Hdigit _ IH|l0 _ IH];
    intros l Heq.
  - by destruct l.
  - destruct l as [|x' l]; simplify_eq/=.
    + by rewrite (underscore_letter facts) in Hx.
    + apply shaped_letter; [done..|]. by apply IH.
  - destruct l as [|x' [|d' l]]; simplify_eq/=.
    + by rewrite (underscore_digit facts) in Hdigit.
    + apply shaped_letter_digit; [done..|]. by apply IH.
  - destruct l as [|x' l]; simplify_eq/=; [apply shaped_nil|].
    apply shaped_underscore. by apply IH.
Qed.

Lemma shaped_repeat_inv (l : list rune) (n : nat) :
  cleanShaped (l ++ repeat underscore n) → cleanShaped l.
Proof.
  induction n as [|n IH]; [by rewrite app_nil_r|].
  change (repeat underscore (S n)) with (underscore :: repeat underscore n).
  rewrite repeat_cons, app_assoc. intros Hs. apply IH.
  by eapply shaped_snoc_underscore_inv.
Qed.

(** The builder is well shaped, and when the last rune read was a letter it
    ends with that letter. *)
Lemma cleanLoop_shaped (p : list rune) :
  let st := cleanLoop p in
  cleanShaped (builder st)
  ∧ (lastWasLetter st = true →
     ∃ b y, builder st = b ++ [y] ∧ cleanShaped b
            ∧ unicode_IsLetter y = true ∧ unicode_ToLower y = y).
Proof.
  induction p as [|r p [IHshape IHlast]] using rev_ind.
  { split; [constructor|done]. }
  cbv zeta in *. rewrite cleanLoop_snoc. set (st := cleanLoop p) in *.
  step_cases st r;
    try (split; [done|first [done|intros Hl; first [discriminate|congruence|by apply IHlast]]]).
  - assert (cleanShaped [unicode_ToLower r]) as Hr.
    { apply shaped_letter;
        [by apply (ToLower_letter facts)|by apply (ToLower_lower facts)|apply shaped_nil]. }
    split; [by apply shaped_app|]. intros _.
    exists (builder st), (unicode_ToLower r).
    split; [done|]. split; [done|].
    split; [by apply (ToLower_letter facts)|by apply (ToLower_lower facts)].
  - split; [|intros [=]]. destruct IHlast as (b & y & Hb & Hshape & Hy & Hlow); [done|].
    rewrite Hb, <- app_assoc. apply shaped_app; [done|].
    cbn. apply shaped_letter_digit; [done..|apply shaped_nil].
  - split; [|intros [=]]. apply shaped_app; [done|].
    apply shaped_underscore, shaped_nil.
Qed.

Lemma shaped_after_letter (o : list rune) :
  cleanShaped o →
  ∀ l1 x l2, o = l1 ++ x :: l2 →
    unicode_IsLetter x = false → x ≠ underscore →
    unicode_IsDigit x = true
    ∧ ∃ l1' y, l1 = l1' ++ [y] ∧ unicode_IsLetter y = true.
Proof.
  induction 1 as [|x0 l0 Hx Hlow _ IH|x0 d l0 Hx Hlow Hd Hdigit _ IH|l0 _ IH];
    intros l1 x l2 Heq Hletter Hne.
  - by destruct l1.
  - destruct l1 as [|x' l1]; simplify_eq/=; [congruence|].
    destruct (IH _ _ _ eq_refl Hletter Hne) as (? & l1' & y & -> & ?).
    split; [done|]. by exists (x' :: l1'), y.
  - destruct l1 as [|x' [|d' l1]]; simplify_eq/=; [congruence| |].
    + split; [done|]. by exists [], x'.
    + destruct (IH _ _ _ eq_refl Hletter Hne) as (? & l1' & y & -> & ?).
      split; [done|]. by exists (x' :: d' :: l1'), y.
  - destruct l1 as [|x' l1]; simplify_eq/=.
    destruct (IH _ _ _ eq_refl Hletter Hne) as (? & l1' & y & -> & ?).
    split; [done|]. by exists (underscore :: l1'), y.
Qed.

(** A cleaned name is well shaped. *)
Lemma cleanFileName_shaped (name cleanedName : list rune) :
  cleanFileName name = Ok cleanedName → cleanShaped cleanedName.
Proof.
  unfold cleanFileName. cbv zeta. case_bool_decide as Hne; [done|]. intros [= <-].
  destruct (cleanLoop_shaped name) as [Hshape _]. cbv zeta in Hshape.
  destruct (cleanLoop_first name) as [_ Hcons]. cbv zeta in Hcons.
  destruct (builder (cleanLoop name)) as [|x b] eqn:Hb; [done|].
  destruct Hcons as (r & _ & Hr & Hhead); [done|].
  destruct (strings_Trim_keeps_head (x :: b) underscore) as (-> & _ & _); [done| |].
  { rewrite Hhead. intros [= Heq]. by apply lower_not_underscore in Heq. }
  destruct (trimRightByte_repeat (x :: b) underscore) as [m Hm].
  rewrite Hm in Hshape. by eapply shaped_repeat_inv.
Qed.

(** X4: in a cleaned name every rune other than a letter and an underscore
    is a digit that stands directly after a letter; so of the digits that
    follow a letter in the name only the first is kept, and no digit follows
    an underscore or begins the name. *)
Theorem cleanFileName_digits (name cleanedName : list rune) :
  cleanFileName name = Ok cleanedName →
  (∀ l1 x l2, cleanedName = l1 ++ x :: l2 →
     unicode_IsLetter x = false → x ≠ underscore →
     unicode_IsDigit x = true
     ∧ ∃ l1' y, l1 = l1' ++ [y] ∧ unicode_IsLetter y = true)
  ∧ (∀ l1 x1 x2 l2, cleanedName = l1 ++ x1 :: x2 :: l2 →
       unicode_IsLetter x1 = true ∨ unicode_IsLetter x2 = true
       ∨ x2 = underscore).
Proof.
  intros Hshape%cleanFileName_shaped. split.
  - by apply shaped_after_letter.
  - intros l1 x1 x2 l2 Heq.
    destruct (unicode_IsLetter x2) eqn:Hx2; [by eauto|].
    destruct (decide (x2 = underscore)) as [|Hne]; [by eauto|]. left.
    destruct (shaped_after_letter _ Hshape (l1 ++ [x1]) x2 l2)
      as (_ & l1' & y & Hl1 & Hy); [by rewrite <- app_assoc|done..|].
    by apply app_inj_tail in Hl1 as [_ ->].
Qed.

Lemma filter_letters_repeat (n : nat) :
  filter (λ x, unicode_IsLetter x = true) (repeat underscore n) = [].
Proof.
  induction n as [|n IH]; [done|]. cbn [repeat].
  rewrite filter_cons_False; [done|]. by rewrite (underscore_letter facts).
Qed.

Lemma cleanLoop_letters (p : list rune) :
  filter (λ x, unicode_IsLetter x = true) (builder (cleanLoop p))
  = map unicode_ToLower (filter (λ r, unicode_IsLetter r = true) p).
Proof.
  induction p as [|r p IH] using rev_ind; [done|].
  rewrite cleanLoop_snoc, filter_app, map_app, <- IH.
  set (st := cleanLoop p) in *. clearbody st.
  assert (∀ x, unicode_IsLetter x = false →
            filter (λ x, unicode_IsLetter x = true) [x] = []) as Hno.
  { intros x Hx. rewrite filter_cons_False; [done|]. by rewrite Hx. }
  step_cases st r; rewrite ?filter_app.
  - rewrite !filter_cons_True; [done|done|]. by apply (ToLower_letter facts).
  - by rewrite !Hno.
  - by rewrite Hno, app_nil_r.
  - by rewrite Hno, app_nil_r.
  - rewrite (Hno r) by done. by rewrite Hno by apply (underscore_letter facts).
  - by rewrite Hno, app_nil_r.
  - by rewrite Hno, app_nil_r.
Qed.

(** X5: no letter is lost and none is moved: the letters of a cleaned name
    are the letters of the name, in their order, in lower case. *)
Theorem cleanFileName_letters (name cleanedName : list rune) :
  cleanFileName name = Ok cleanedName →
  filter (λ x, unicode_IsLetter x = true) cleanedName
  = map unicode_ToLower (filter (λ r, unicode_IsLetter r = true) name).
Proof.
  unfold cleanFileName. cbv zeta. case_bool_decide; [done|]. intros [= <-].
  rewrite <- cleanLoop_letters.
  destruct (strings_Trim_infix (builder (cleanLoop name)) underscore)
    as (n & m & Hinfix).
  rewrite Hinfix at 2. rewrite !filter_app, !filter_letters_repeat.
  by rewrite app_nil_r.
Qed.

(** Reading a well-shaped text, the loop copies it without its underscores. *)
Lemma cleanStep_shaped (o : list rune) :
  cleanShaped o →
  ∀ st, lastWasSpace st = false →
    builder (fold_left cleanStep o st)
    = builder st ++ filter (λ x, x ≠ underscore) o
    ∧ lastWasSpace (fold_left cleanStep o st) = false.
Proof.
  induction 1 as [|x l Hx Hlow _ IH|x d l Hx Hlow Hd Hdigit _ IH|l _ IH];
    intros st Hst; cbn [fold_left].
  - by rewrite app_nil_r.
  - destruct (IH (cleanStep st x)) as [-> ->];
      [by unfold cleanStep; rewrite Hx|].
    split; [|done]. unfold cleanStep. rewrite Hx, Hlow. cbn [builder].
    rewrite filter_cons_True, <- app_assoc; [done|].
    intros ->. by rewrite (underscore_letter facts) in Hx.
  - destruct (IH (cleanStep (cleanStep st x) d)) as [-> ->];
      [by unfold cleanStep; rewrite Hx, Hd, Hdigit|].
    split; [|done]. unfold cleanStep. rewrite Hx, Hlow, Hd, Hdigit.
    cbn [builder lastWasLetter].
    rewrite !filter_cons_True, <- !app_assoc; [done| |].
    + intros ->. by rewrite (underscore_digit facts) in Hdigit.
    + intros ->. by rewrite (underscore_letter facts) in Hx.
  - assert (cleanStep st underscore
            = {| builder := builder st; lastWasSpace := lastWasSpace st;
                 lastWasLetter := false |}) as ->.
    { unfold cleanStep.
      by rewrite (underscore_letter facts), (underscore_digit facts),
                 (underscore_space facts). }
    destruct (IH {| builder := builder st; lastWasSpace := lastWasSpace st;
                    lastWasLetter := false |}) as [-> ->]; [done|].
    split; [|done]. cbn [builder]. by rewrite filter_cons_False by (by intros []).
Qed.

Lemma shaped_without_underscores (o : list rune) :
  cleanShaped o → cleanShaped (filter (λ x, x ≠ underscore) o).
Proof.
  induction 1 as [|x l Hx Hlow _ IH|x d l Hx Hlow Hd Hdigit _ IH|l _ IH].
  - apply shaped_nil.
  - rewrite filter_cons_True; [by apply shaped_letter|].
    intros ->. by rewrite (underscore_letter facts) in Hx.
  - rewrite !filter_cons_True; [by apply shaped_letter_digit| |].
    + intros ->. by rewrite (underscore_digit facts) in Hdigit.
    + intros ->. by rewrite (underscore_letter facts) in Hx.
  - by rewrite filter_cons_False by (by intros []).
Qed.

(** Cleaning a well-shaped text that holds a rune other than '_'. *)
Lemma cleanFileName_of_shaped (o : list rune) :
  cleanShaped o →
  filter (λ x, x ≠ underscore) o ≠ [] →
  cleanFileName o = Ok (filter (λ x, x ≠ underscore) o).
Proof.
  intros Hshape Hne. unfold cleanFileName, cleanLoop. cbv zeta.
  destruct (cleanStep_shaped o Hshape cleanInit) as [-> _]; [done|].
  cbn [cleanInit builder app].
  rewrite strings_Trim_absent.
  - by rewrite bool_decide_eq_false_2.
  - rewrite list_elem_of_filter. by intros [? _].
Qed.

Lemma cleanFileName_twice (name cleanedName : list rune) :
  cleanFileName name = Ok cleanedName →
  let stripped := filter (λ x, x ≠ underscore) cleanedName in
  cleanFileName cleanedName = Ok stripped
  ∧ cleanFileName stripped = Ok stripped
  ∧ (cleanFileName cleanedName = Ok cleanedName ↔ underscore ∉ cleanedName).
Proof.
  intros Hclean stripped.
  pose proof (cleanFileName_shaped _ _ Hclean) as Hshape.
  assert (stripped ≠ []) as Hne.
  { unfold cleanFileName in Hclean. cbv zeta in Hclean.
    case_bool_decide as Hempty; [done|]. simplify_eq.
    pose proof (strings_Trim_head (builder (cleanLoop name)) underscore) as Hhead.
    subst stripped. destruct (strings_Trim _ _) as [|x l]; [done|].
    rewrite filter_cons_True; [done|]. intros ->. by apply Hhead. }
  assert (cleanFileName cleanedName = Ok stripped) as Hagain
    by by apply cleanFileName_of_shaped.
  assert (filter (λ x, x ≠ underscore) stripped = stripped) as Hidem.
  { subst stripped. rewrite list_filter_filter. apply list_filter_iff. tauto. }
  split; [done|]. split.
  - rewrite <- Hidem at 2. apply cleanFileName_of_shaped.
    + by apply shaped_without_underscores.
    + by rewrite Hidem.
  - rewrite Hagain. split.
    + intros [= Heq]. rewrite <- Heq. subst stripped.
      rewrite list_elem_of_filter. by intros [? _].
    + intros Hnot. f_equal. subst stripped. clear -Hnot.
      induction cleanedName as [|x l IH]; [done|].
      rewrite filter_cons_True.
      * f_equal. apply IH. intros ?. apply Hnot. by right.
      * intros ->. apply Hnot. by left.
Qed.

(** X6: cleaning is not stable at once: an underscore is neither letter,
    digit nor white space, so cleaning a cleaned name removes its underscores
    and keeps the rest; cleaning once more changes nothing.  A cleaned name
    is a fixed point exactly when it has no underscore. *)
Theorem cleanFileName_again (name cleanedName : list rune) :
  cleanFileName name = Ok cleanedName →
  let stripped := filter (λ x, x ≠ underscore) cleanedName in
  cleanFileName cleanedName = Ok stripped
  ∧ cleanFileName stripped = Ok stripped
  ∧ (cleanFileName cleanedName = Ok cleanedName ↔ underscore ∉ cleanedName).
Proof. exact (cleanFileName_twice name cleanedName). Qed.

End Facts.

End CleanLoop.


(** * Further properties of package certificates *)

(** ** The DNS names *)

Lemma filter_Forall_id (P : string → Prop) `{!∀ x, Decision (P x)} (l : list string) :
  Forall P l → filter P l = l.
Proof.
  induction 1 as [|x l Hx _ IH]; [done|].
  rewrite filter_cons_True by done. by f_equal.
Qed.

Lemma dedupFirst_id (l : list string) : dedupFirst l = l ↔ NoDup l.
Proof.
  split.
  - intros <-. apply dedupFirst_NoDup.
  - induction 1 as [|x l Hx _ IH]; [done|].
    cbn [dedupFirst]. rewrite IH. f_equal. apply filter_Forall_id.
    apply Forall_forall. intros y Hy ->. done.
Qed.

Lemma dedupFirst_sublist (l : list string) : dedupFirst l `sublist_of` l.
Proof.
  induction l as [|x l IH]; [done|].
  cbn [dedupFirst]. apply sublist_skip.
  etrans; [apply sublist_filter|done].
Qed.

(** X15: the DNS-name list is the given list (commonName, then the alternate
    names) exactly when that list has no duplicates; and deduplicating the
    result once more returns it unchanged. *)
Theorem csrDNSNames_unchanged_iff (commonName : string) (altNames : list string) :
  (csrDNSNames commonName altNames = commonName :: altNames
   ↔ NoDup (commonName :: altNames))
  ∧ csrDNSNames commonName (tail (csrDNSNames commonName altNames))
    = csrDNSNames commonName altNames.
Proof.
  rewrite !csrDNSNames_dedupFirst. split; [apply dedupFirst_id|].
  pose proof (dedupFirst_NoDup (commonName :: altNames)) as Hnodup.
  assert (commonName :: tail (dedupFirst (commonName :: altNames))
          = dedupFirst (commonName :: altNames)) as -> by done.
  by apply dedupFirst_id.
Qed.

(** X16: the DNS-name list is a subsequence of commonName followed by the
    alternate names (nothing is added or reordered), and its length is the
    number of distinct names among them. *)
Theorem csrDNSNames_sublist (commonName : string) (altNames : list string) :
  csrDNSNames commonName altNames `sublist_of` commonName :: altNames
  ∧ length (csrDNSNames commonName altNames)
    = size (list_to_set (commonName :: altNames) : gset string).
Proof.
  rewrite csrDNSNames_dedupFirst. split; [apply dedupFirst_sublist|].
  rewrite <- (size_list_to_set (C := gset string)) by apply dedupFirst_NoDup.
  f_equal. apply set_eq. intros x.
  by rewrite !elem_of_list_to_set, dedupFirst_elem_of.
Qed.

(** ** The envelope builder and the signing run *)

Lemma EncodeToString_nonempty (src : bytes) :
  src ≠ [] → base64.EncodeToString src ≠ EmptyString.
Proof. by destruct src as [|b0 [|b1 [|b2 rest]]]. Qed.

Section SigningMore.
Context `{L : GoLib}.

Lemma marshalPKCS7_Ok_x30 (certBytes : bytes) (w : World) :
  ∃ pkcs7DER rest,
    marshalPKCS7 certBytes w = (inl pkcs7DER, w) ∧ pkcs7DER = x30 :: rest.
Proof.
  destruct certBytes as [|b l].
  - do 2 eexists. split; reflexivity.
  - do 2 eexists. split; [by apply marshalPKCS7_layout|reflexivity].
Qed.

(** X17: the three marshalling steps of the envelope builder cannot fail:
    for every certificate, the empty one included, lines 556-623 go through
    without an error return, leave the world as it is, and give a non-empty
    DER element that begins with the SEQUENCE identifier 0x30. *)
Theorem marshalPKCS7_never_fails (certBytes : bytes) (w : World) :
  ∃ pkcs7DER rest,
    marshalPKCS7 certBytes w = (inl pkcs7DER, w) ∧ pkcs7DER = x30 :: rest.
Proof. exact (marshalPKCS7_Ok_x30 certBytes w). Qed.

(** X14: the string returned is empty exactly when an error is returned: a
    successful run never returns the empty string. *)
Theorem signCSRToPKCS7_empty_iff_error (csrPEM : string) (key : PrivateKey)
    (validityDays : Z) (w w' : World) (out : string) (err : option error) :
  signCSRToPKCS7 csrPEM key validityDays w = ((out, err), w') →
  (out = EmptyString ↔ err ≠ None).
Proof.
  intros Hrun. destruct err as [e|].
  - apply signCSRToPKCS7_Err_inv in Hrun as [-> _]. done.
  - apply signCSRToPKCS7_Ok_inv in Hrun
      as (csr & serialNumber & w1 & now & w2 & certBytes & cert & pkcs7DER
          & _ & _ & _ & _ & Hder & ->).
    destruct (marshalPKCS7_Ok_x30 certBytes w') as (der' & rest & Hder' & ->).
    rewrite Hder' in Hder. simplify_eq. split; [|done].
    intros Hempty. by apply EncodeToString_nonempty in Hempty.
Qed.

(** X13: in every successful run the template handed to the library asks
    for the key usages digital signature (bit 0) and content commitment
    (bit 1) and no other, marks the basic constraints valid, and carries the
    DNS names of the request; the URI loop changes none of this. *)
Theorem signCSRToPKCS7_template_usage (csrPEM : string) (key : PrivateKey)
    (validityDays : Z) (w w' : World) (out : string) :
  signCSRToPKCS7 csrPEM key validityDays w = ((out, None), w') →
  ∃ csr serialNumber w1 now w2 certBytes,
    reachesSerial csrPEM w csr serialNumber w1
    ∧ time_Now w1 = (now, w2)
    ∧ (let template := signingTemplate csr serialNumber now validityDays in
       x509_CreateCertificate rand_Reader template template (CR_PublicKey csr) key w2
       = (Ok certBytes, w')
       ∧ (∀ i, Z.testbit (KeyUsage template) i = true ↔ i = 0 ∨ i = 1)
       ∧ BasicConstraintsValid template = true
       ∧ DNSNames template = CR_DNSNames csr).
Proof.
  intros Hrun.
  destruct (signCSRToPKCS7_Ok_inv _ _ _ _ _ _ Hrun)
    as (csr & serialNumber & w1 & now & w2 & certBytes & cert & pkcs7DER
        & Hreach & Hnow & Hcreate & _).
  exists csr, serialNumber, w1, now, w2, certBytes.
  destruct (signingTemplate_fields csr serialNumber now validityDays)
    as (_ & _ & _ & _ & Husage & Hbasic & Hdns).
  cbv zeta in *. rewrite Husage, Hbasic, Hdns. repeat split; try done.
  - intros Hbit. destruct (decide (i < 0)) as [Hneg|Hpos].
    { by rewrite Z.testbit_neg_r in Hbit. }
    destruct (decide (i = 0)) as [->|]; [by left|].
    destruct (decide (i = 1)) as [->|]; [by right|].
    exfalso. replace i with (Z.succ (Z.succ (i - 2))) in Hbit by lia.
    change 3 with (2 * (2 * 0 + 1) + 1) in Hbit.
    rewrite Z.testbit_odd_succ, Z.testbit_odd_succ in Hbit by lia.
    by rewrite Z.testbit_0_l in Hbit.
  - by intros [-> | ->].
Qed.

End SigningMore.

(** ** From the key pair to the envelope *)
Section Pipeline.
Context `{L : GoLib}.







End Pipeline.

(** ** What the command prints *)
Section Output.
Context `{L : GoLib}.

(** X12: the command prints between one and four pieces; a piece that
    begins with "Error" is the last one printed, nothing follows it; and when
    no piece begins with "Error" all four were printed, the last being the
    PKCS#7 block. *)
Theorem CertificateGeneration_output (cmd : Command) (args : list string) (w : World) :
  let out := fst (CertificateGeneration cmd args w) in
  (1 ≤ length out ≤ 4)%nat
  ∧ (∀ pre line post,
       out = pre ++ line :: post →
       String.prefix "Error" line = true → post = [])
  ∧ (Forall (λ line, String.prefix "Error" line = false) out →
     ∃ key csr pkcs7,
       out = ["Generated ECDSA key pair with P-256 curve" +:+ newline;
              "Private key PEM:" +:+ newline +:+ key +:+ newline;
              "CSR PEM:" +:+ newline +:+ csr +:+ newline;
              "PKCS#7 Certificate (Base64):" +:+ newline +:+ pkcs7 +:+ newline]).
Proof.
  unfold CertificateGeneration. cbv zeta.
  destruct (generateECDSAKeyPair w) as [[keyPair|e1] w1].
  2:{ cbn [fst length]. split; [lia|]. split.
      - intros [|x1 [|x2 pre]] line post [=]; by subst.
      - intros [Hline _]%Forall_cons. by cbn in Hline. }
  destruct (createCSR _ _ _ _ _ _ _ _ _ w1) as [[csrResult|e2] w2].
  2:{ cbn [fst length app]. split; [lia|]. split.
      - intros [|x1 [|x2 [|x3 [|x4 pre]]]] line post [=]; subst; try done.
      - intros Hall. exfalso.
        repeat (apply Forall_cons in Hall as [? Hall]). done. }
  destruct (signCSRToPKCS7 _ _ _ w2) as [[pkcs7Cert [e3|]] w3].
  - cbn [fst length app]. split; [lia|]. split.
    + intros [|x1 [|x2 [|x3 [|x4 [|x5 pre]]]]] line post [=]; subst; try done.
    + intros Hall. exfalso.
      repeat (apply Forall_cons in Hall as [? Hall]). done.
  - cbn [fst length app]. split; [lia|]. split.
    + intros [|x1 [|x2 [|x3 [|x4 [|x5 pre]]]]] line post [=]; subst; try done.
    + intros _. by eexists _, _, _.
Qed.

End Output.

(** * New file names and archive names *)

Section StringLemmas.
Context {A : Type} `{EqDecision A}.

Lemma strings_TrimSuffix_app (s suffix : list A) :
  strings_TrimSuffix (s ++ suffix) suffix = s.
Proof.
  unfold strings_TrimSuffix, strings_HasSuffix.
  rewrite length_app.
  replace (length s + length suffix - length suffix)%nat with (length s) by lia.
  rewrite drop_app_length, take_app_length.
  rewrite bool_decide_eq_true_2 by done.
  by destruct (length suffix <=? length s + length suffix)%nat eqn:Hle;
    [|apply Nat.leb_gt in Hle; lia].
Qed.

Lemma strings_TrimSuffix_nil (s : list A) : strings_TrimSuffix s [] = s.
Proof. rewrite <- (app_nil_r s) at 1. apply strings_TrimSuffix_app. Qed.

Lemma strings_TrimPrefix_nil_iff (s prefix : list A) :
  prefix ≠ [] →
  strings_TrimPrefix s prefix = [] ↔ s = [] ∨ s = prefix.
Proof.
  intros Hne. unfold strings_TrimPrefix, strings_HasPrefix.
  destruct (length prefix <=? length s)%nat eqn:Hle; cbn [andb].
  - apply Nat.leb_le in Hle. case_bool_decide as Htake.
    + split.
      * intros Hdrop. right. rewrite <- (take_drop (length prefix) s), Hdrop, Htake.
        by rewrite app_nil_r.
      * intros [->| ->]; [by destruct prefix|by rewrite drop_all].
    + split; [by left|]. intros [->| ->]; [done|].
      by rewrite firstn_all in Htake.
  - apply Nat.leb_gt in Hle. split; [by left|].
    intros [->| ->]; [done|lia].
Qed.

Lemma strings_TrimPrefix_app (prefix s : list A) :
  strings_TrimPrefix (prefix ++ s) prefix = s.
Proof.
  unfold strings_TrimPrefix, strings_HasPrefix.
  rewrite length_app, take_app_length, drop_app_length.
  rewrite bool_decide_eq_true_2 by done.
  by destruct (length prefix <=? length prefix + length s)%nat eqn:Hle;
    [|apply Nat.leb_gt in Hle; lia].
Qed.

(** X8: the walk function of compressDirectory skips an entry exactly when
    it is a directory whose path is empty or is the root path followed by the
    separator; the root path itself (not empty) is therefore not skipped:
    it gets the base name of the source as its archive name.  An entry below
    the root, [rootPath/rel], gets the base name of the source, a slash and
    [rel]. *)
Theorem headerName_cases (Base : list A → list A) (sep slash : A)
    (srcPath rootPath filePath : list A) (isDir : bool) :
  (headerName Base sep slash srcPath rootPath filePath isDir = None
   ↔ isDir = true ∧ (filePath = [] ∨ filePath = rootPath ++ [sep]))
  ∧ (rootPath ≠ [] →
     headerName Base sep slash rootPath rootPath rootPath isDir
     = Some (Base rootPath))
  ∧ (∀ rel, rel ≠ [] →
       headerName Base sep slash rootPath rootPath (rootPath ++ sep :: rel) isDir
       = Some (Base rootPath ++ slash :: rel)).
Proof.
  assert (rootPath ++ [sep] ≠ []) as Hne by (by destruct rootPath).
  split; [|split].
  - unfold headerName. cbv zeta.
    pose proof (strings_TrimPrefix_nil_iff filePath (rootPath ++ [sep]) Hne) as Hiff.
    destruct isDir; [rewrite andb_true_r|rewrite andb_false_r].
    + case_bool_decide as Hrel.
      * split; [|done]. intros _. split; [done|]. by apply Hiff.
      * split; [by case_bool_decide|]. intros [_ Hor]. by apply Hiff in Hor.
    + split; [by case_bool_decide|]. by intros [? _].
  - intros Hroot. unfold headerName. cbv zeta.
    rewrite bool_decide_eq_false_2.
    + cbn [andb]. by rewrite bool_decide_eq_true_2.
    + rewrite strings_TrimPrefix_nil_iff by done. intros [?|Heq]; [done|].
      apply (f_equal length) in Heq. rewrite length_app in Heq. cbn in Heq. lia.
  - intros rel Hrel. unfold headerName. cbv zeta.
    replace (rootPath ++ sep :: rel) with ((rootPath ++ [sep]) ++ rel)
      by (by rewrite <- app_assoc).
    rewrite strings_TrimPrefix_app.
    rewrite (bool_decide_eq_false_2 (rel = [])) by done. cbn [andb].
    rewrite bool_decide_eq_false_2; [done|].
    intros Heq. apply (f_equal length) in Heq. rewrite !length_app in Heq.
    cbn in Heq. lia.
Qed.

End StringLemmas.

(** ** [filepath.Ext] *)

Lemma Ext_loop_last_dot (l rest seen : list rune) :
  dot ∉ l → slash ∉ l →
  Ext_loop (l ++ dot :: rest) seen = dot :: (reverse l ++ seen).
Proof.
  revert seen. induction l as [|c l IH]; intros seen Hdot Hslash.
  - reflexivity.
  - cbn [app Ext_loop].
    rewrite (proj2 (Z.eqb_neq c slash)) by (intros ->; apply Hslash; by left).
    rewrite (proj2 (Z.eqb_neq c dot)) by (intros ->; apply Hdot; by left).
    rewrite IH.
    + by rewrite reverse_cons, <- app_assoc.
    + intros ?. apply Hdot. by right.
    + intros ?. apply Hslash. by right.
Qed.

(** The extension of [name.ext] is [.ext] when [ext] has no dot and no
    path separator. *)
Lemma filepath_Ext_app (name ext : list rune) :
  dot ∉ ext → slash ∉ ext →
  filepath_Ext (name ++ dot :: ext) = dot :: ext.
Proof.
  intros Hdot Hslash. unfold filepath_Ext.
  rewrite reverse_app, reverse_cons, <- app_assoc. cbn [app].
  rewrite Ext_loop_last_dot.
  - by rewrite reverse_involutive, app_nil_r.
  - by rewrite elem_of_reverse.
  - by rewrite elem_of_reverse.
Qed.

Section NewFileNameProperties.
Context `{U : Unicode}.

Lemma newFileName_base (extension name ext : list rune) :
  dot ∉ ext → slash ∉ ext →
  newFileName extension (name ++ dot :: ext)
  = match cleanFileName name with
    | Err err => Err err
    | Ok cleanedName => Ok (cleanedName ++ [dot] ++ extension)
    end.
Proof.
  intros Hdot Hslash. unfold newFileName. cbv zeta.
  by rewrite filepath_Ext_app, strings_TrimSuffix_app.
Qed.

(** X19: the part of a name from its last dot on plays no part in the new
    name, which is the cleaned rest, a dot and the extension asked for; a
    name that has nothing, or no letter, before its last dot gets no new
    name: in particular a dot file such as [.bashrc] is refused with the
    error for the empty input. *)
Theorem newFileName_last_dot (extension name ext : list rune) :
  (∀ r, unicode_IsLetter r = true → unicode_ToLower r ≠ underscore) →
  dot ∉ ext → slash ∉ ext →
  (newFileName extension (name ++ dot :: ext)
   = newFileName extension (name ++ [dot]))
  ∧ (Forall (λ r, unicode_IsLetter r = false) name →
     newFileName extension (name ++ dot :: ext)
     = Err (errorString ("cleaned filename is empty for input: "
                         +:+ string_of_runes name)))
  ∧ (Exists (λ r, unicode_IsLetter r = true) name →
     ∃ cleanedName,
       cleanFileName name = Ok cleanedName
       ∧ newFileName extension (name ++ dot :: ext)
         = Ok (cleanedName ++ dot :: extension)).
Proof.
  intros Hlower Hdot Hslash.
  rewrite newFileName_base by done.
  rewrite (newFileName_base extension name []) by apply not_elem_of_nil.
  destruct (cleanFileName_outcome name Hlower) as [Herr Hok].
  split; [done|]. split.
  - intros Hall. by rewrite Herr.
  - intros Hex. destruct (Hok Hex) as (cleanedName & -> & _). by exists cleanedName.
Qed.

(** X7: renaming is not stable at once.  For an extension without dot and
    separator, the new name of a new name is the same with the underscores of
    its cleaned part removed, and that name is its own new name: a second run
    over a directory computes a different name for the files whose names got
    underscores in the first run, a third run finds every name unchanged. *)
Theorem newFileName_again (extension oldName newName : list rune) :
  UnicodeFacts →
  dot ∉ extension → slash ∉ extension →
  newFileName extension oldName = Ok newName →
  ∃ cleanedName,
    newName = cleanedName ++ dot :: extension
    ∧ let stable := filter (λ x, x ≠ underscore) cleanedName ++ dot :: extension in
      newFileName extension newName = Ok stable
      ∧ newFileName extension stable = Ok stable
      ∧ (stable = newName ↔ underscore ∉ cleanedName).
Proof.
  intros facts Hdot Hslash Hnew. unfold newFileName in Hnew. cbv zeta in Hnew.
  destruct (cleanFileName _) as [cleanedName|err] eqn:Hclean; [|done].
  simplify_eq. exists cleanedName. split; [done|]. cbv zeta.
  destruct (cleanFileName_twice facts _ _ Hclean) as (Hagain & Hfix & Hiff).
  cbv zeta in *. rewrite !newFileName_base by done. rewrite Hagain, Hfix.
  split; [done|]. split; [done|]. split.
  - intros Heq%app_inv_tail. apply Hiff. by rewrite Hagain, Heq.
  - intros Hnot. apply Hiff in Hnot. rewrite Hagain in Hnot.
    injection Hnot as Hnot. by rewrite Hnot.
Qed.

End NewFileNameProperties.

(** * The properties on ASCII and on the stand-in library *)
Section StandInMore.
#[local] Existing Instance Stub.types.
#[local] Existing Instance Stub.lib.
#[local] Existing Instance Ascii7.unicode.

Ltac absent :=
  apply (bool_decide_unpack _); vm_compute; exact I.

Ltac ascii_cases :=
  cbn; unfold Ascii7.isUpper, Ascii7.isLower, underscore;
  repeat match goal with
         | |- context [?a <=? ?b] => destruct (Z.leb_spec a b)
         | H : context [?a <=? ?b] |- _ => destruct (Z.leb_spec a b)
         end;
  cbn in *; try done; try lia.

Lemma Ascii7_facts : UnicodeFacts.
Proof.
  constructor.
  - intros r. ascii_cases.
  - intros r. ascii_cases.
  - reflexivity.
  - reflexivity.
  - reflexivity.
Defined.

Lemma Ascii7_lower_not_underscore (r : rune) :
  unicode_IsLetter r = true → unicode_ToLower r ≠ underscore.
Proof. ascii_cases. Defined.

Lemma messyName_clean : cleanFileName messyName = Ok tidyName.
Proof. vm_compute. reflexivity. Defined.

Lemma messyName_has_letter : Exists (λ r, unicode_IsLetter r = true) messyName.
Proof. absent. Defined.

Lemma cleanFileName_error_iff_witness :
  (∀ r, unicode_IsLetter r = true → unicode_ToLower r ≠ underscore)
  ∧ cleanFileName []
    = Err (errorString "cleaned filename is empty for input: ")
  ∧ ∃ cleanedName, cleanFileName messyName = Ok cleanedName ∧ cleanedName ≠ [].
Proof.
  split; [exact Ascii7_lower_not_underscore|]. split.
  - exact (proj1 (cleanFileName_error_iff [] Ascii7_lower_not_underscore)
             (@List.Forall_nil _ _)).
  - exact (proj2 (cleanFileName_error_iff messyName Ascii7_lower_not_underscore)
             messyName_has_letter).
Defined.

Lemma cleanFileName_alphabet_witness :
  cleanFileName messyName = Ok tidyName
  ∧ (length tidyName ≤ length messyName)%nat.
Proof.
  split; [exact messyName_clean|].
  exact (proj1 (cleanFileName_alphabet messyName tidyName messyName_clean)).
Defined.

Lemma cleanFileName_underscores_witness :
  cleanFileName messyName = Ok tidyName
  ∧ head tidyName ≠ Some underscore
  ∧ last tidyName ≠ Some underscore
  ∧ ¬ doubled underscore tidyName.
Proof.
  split; [exact messyName_clean|].
  exact (cleanFileName_underscores Ascii7_facts messyName tidyName messyName_clean).
Defined.

Lemma cleanFileName_digits_witness :
  cleanFileName messyName = Ok tidyName
  ∧ ∀ l1 x1 x2 l2, tidyName = l1 ++ x1 :: x2 :: l2 →
      unicode_IsLetter x1 = true ∨ unicode_IsLetter x2 = true ∨ x2 = underscore.
Proof.
  split; [exact messyName_clean|].
  exact (proj2 (cleanFileName_digits Ascii7_facts messyName tidyName messyName_clean)).
Defined.

Lemma cleanFileName_letters_witness :
  cleanFileName messyName = Ok tidyName
  ∧ filter (λ x, unicode_IsLetter x = true) tidyName
    = map unicode_ToLower (filter (λ r, unicode_IsLetter r = true) messyName).
Proof.
  split; [exact messyName_clean|].
  exact (cleanFileName_letters Ascii7_facts messyName tidyName messyName_clean).
Defined.

Lemma cleanFileName_again_witness :
  cleanFileName messyName = Ok tidyName
  ∧ cleanFileName tidyName = Ok (filter (λ x, x ≠ underscore) tidyName)
  ∧ cleanFileName (filter (λ x, x ≠ underscore) tidyName)
    = Ok (filter (λ x, x ≠ underscore) tidyName).
Proof.
  split; [exact messyName_clean|].
  destruct (cleanFileName_again Ascii7_facts messyName tidyName messyName_clean)
    as (Hagain & Hfix & _).
  exact (conj Hagain Hfix).
Defined.

Lemma txt_plain : (dot ∉ Ascii7.runes "txt") ∧ (slash ∉ Ascii7.runes "txt").
Proof. split; absent. Defined.

Lemma newFileName_last_dot_witness :
  newFileName (Ascii7.runes "txt") (Ascii7.runes ".bashrc")
  = Err (errorString "cleaned filename is empty for input: ")
  ∧ newFileName (Ascii7.runes "txt") (messyName ++ dot :: Ascii7.runes "JPEG")
    = newFileName (Ascii7.runes "txt") (messyName ++ [dot]).
Proof.
  assert ((dot ∉ Ascii7.runes "bashrc") ∧ (slash ∉ Ascii7.runes "bashrc")) as [Hd1 Hs1]
    by (split; absent).
  assert ((dot ∉ Ascii7.runes "JPEG") ∧ (slash ∉ Ascii7.runes "JPEG")) as [Hd2 Hs2]
    by (split; absent).
  split.
  - exact (proj1 (proj2 (newFileName_last_dot (Ascii7.runes "txt") []
                           (Ascii7.runes "bashrc")
                           Ascii7_lower_not_underscore Hd1 Hs1)) (@List.Forall_nil _ _)).
  - exact (proj1 (newFileName_last_dot (Ascii7.runes "txt") messyName
                    (Ascii7.runes "JPEG") Ascii7_lower_not_underscore Hd2 Hs2)).
Defined.

Lemma messyName_new :
  newFileName (Ascii7.runes "txt") (messyName ++ Ascii7.runes ".JPEG")
  = Ok (Ascii7.runes "my_file_copyv2.txt").
Proof. vm_compute. reflexivity. Defined.

Lemma newFileName_again_witness :
  newFileName (Ascii7.runes "txt") (messyName ++ Ascii7.runes ".JPEG")
  = Ok (Ascii7.runes "my_file_copyv2.txt")
  ∧ ∃ cleanedName,
      Ascii7.runes "my_file_copyv2.txt" = cleanedName ++ dot :: Ascii7.runes "txt"
      ∧ newFileName (Ascii7.runes "txt") (Ascii7.runes "my_file_copyv2.txt")
        = Ok (filter (λ x, x ≠ underscore) cleanedName ++ dot :: Ascii7.runes "txt").
Proof.
  split; [exact messyName_new|].
  destruct (newFileName_again (Ascii7.runes "txt")
              (messyName ++ Ascii7.runes ".JPEG")
              (Ascii7.runes "my_file_copyv2.txt")
              Ascii7_facts (proj1 txt_plain) (proj2 txt_plain) messyName_new)
    as (cleanedName & Heq & Hagain & _).
  exists cleanedName. exact (conj Heq Hagain).
Defined.












Lemma signCSRToPKCS7_empty_iff_error_witness :
  signCSRToPKCS7 Stub.csrAlice "bob"%string 365 Stub.w0
  = ((fst (fst runAlice), None), snd runAlice)
  ∧ (fst (fst runAlice) = EmptyString ↔ @None error ≠ None).
Proof.
  split; [exact runAlice_eq|].
  exact (signCSRToPKCS7_empty_iff_error Stub.csrAlice "bob"%string 365 Stub.w0
           (snd runAlice) (fst (fst runAlice)) None runAlice_eq).
Defined.

Lemma signCSRToPKCS7_template_usage_witness :
  signCSRToPKCS7 Stub.csrAlice "bob"%string 365 Stub.w0
  = ((fst (fst runAlice), None), snd runAlice)
  ∧ ∃ csr serialNumber w1 now w2 certBytes,
      reachesSerial Stub.csrAlice Stub.w0 csr serialNumber w1
      ∧ time_Now w1 = (now, w2)
      ∧ (let template := signingTemplate csr serialNumber now 365 in
         x509_CreateCertificate rand_Reader template template (CR_PublicKey csr)
           "bob"%string w2 = (Ok certBytes, snd runAlice)
         ∧ (∀ i, Z.testbit (KeyUsage template) i = true ↔ i = 0 ∨ i = 1)
         ∧ BasicConstraintsValid template = true
         ∧ DNSNames template = CR_DNSNames csr).
Proof.
  split; [exact runAlice_eq|].
  exact (signCSRToPKCS7_template_usage Stub.csrAlice "bob"%string 365 Stub.w0
           (snd runAlice) (fst (fst runAlice)) runAlice_eq).
Defined.

End StandInMore.
